(** * Raven: a shallow embedding of the extraction engine, the insight
    fallback, the per-link pipeline and the background scheduler.

    Sources: [src/services/insight_extractor.py],
    [src/services/content_extractor.py] and [src/app.py].

    Strings are Stdlib strings of ASCII characters; Python's [str.lower],
    [str.isalnum], [str.isspace] and the regex class [\w] are modelled on
    the ASCII range, which is all the claims below exercise. *)

From Stdlib Require Import String Ascii List Bool Arith ZArith Lia.
Import ListNotations.
Open Scope list_scope.
Open Scope string_scope.

(** ** Python string primitives *)
Module Py.

Definition lower_char (c : ascii) : ascii :=
  let n := nat_of_ascii c in
  if (Nat.leb 65 n) && (Nat.leb n 90) then ascii_of_nat (n + 32) else c.

(** [s.lower()] *)
Fixpoint lower (s : string) : string :=
  match s with
  | EmptyString => EmptyString
  | String c r => String (lower_char c) (lower r)
  end.

Definition is_alnum_char (c : ascii) : bool :=
  let n := nat_of_ascii c in
  ((Nat.leb 48 n) && (Nat.leb n 57)) || ((Nat.leb 65 n) && (Nat.leb n 90))
  || ((Nat.leb 97 n) && (Nat.leb n 122)).

(** the regex class [\w] *)
Definition is_word_char (c : ascii) : bool :=
  is_alnum_char c || Ascii.eqb c "_"%char.

(** [str.isspace] on one character: \t \n \v \f \r, \x1c-\x1f and space *)
Definition is_space (c : ascii) : bool :=
  let n := nat_of_ascii c in
  ((Nat.leb 9 n) && (Nat.leb n 13)) || ((Nat.leb 28 n) && (Nat.leb n 32)).

Fixpoint all_chars (p : ascii -> bool) (s : string) : bool :=
  match s with
  | EmptyString => true
  | String c r => p c && all_chars p r
  end.

(** [s.isalnum()]: non-empty and every character alphanumeric *)
Definition isalnum (s : string) : bool :=
  match s with
  | EmptyString => false
  | _ => all_chars is_alnum_char s
  end.

Fixpoint filter_chars (p : ascii -> bool) (s : string) : string :=
  match s with
  | EmptyString => EmptyString
  | String c r => if p c then String c (filter_chars p r) else filter_chars p r
  end.

Definition mem_char (c : ascii) (set : string) : bool :=
  existsb (Ascii.eqb c) (list_ascii_of_string set).

Fixpoint lstrip_by (p : ascii -> bool) (s : string) : string :=
  match s with
  | EmptyString => EmptyString
  | String c r => if p c then lstrip_by p r else s
  end.

Definition rev_string (s : string) : string :=
  string_of_list_ascii (rev (list_ascii_of_string s)).

Definition rstrip_by (p : ascii -> bool) (s : string) : string :=
  rev_string (lstrip_by p (rev_string s)).

(** [s.strip(chars)] *)
Definition strip_chars (set : string) (s : string) : string :=
  rstrip_by (fun c => mem_char c set) (lstrip_by (fun c => mem_char c set) s).

(** [s.strip()] and [s.rstrip()] *)
Definition strip (s : string) : string := rstrip_by is_space (lstrip_by is_space s).
Definition rstrip (s : string) : string := rstrip_by is_space s.

(** [pat in s] *)
Fixpoint contains (pat s : string) : bool :=
  prefix pat s ||
  match s with
  | EmptyString => false
  | String _ r => contains pat r
  end.

(** [s.split()]: maximal runs of non-whitespace characters *)
Fixpoint split_ws_go (s : string) (cur : list ascii) : list string :=
  match s with
  | EmptyString =>
      match cur with [] => [] | _ => [string_of_list_ascii (rev cur)] end
  | String c r =>
      if is_space c then
        match cur with
        | [] => split_ws_go r []
        | _ => string_of_list_ascii (rev cur) :: split_ws_go r []
        end
      else split_ws_go r (c :: cur)
  end.

Definition split_ws (s : string) : list string := split_ws_go s [].

(** [s.split(sep)] for a non-empty separator: leftmost, non-overlapping
    occurrences; [skip] counts the characters of a separator still to pass. *)
Fixpoint split_go (sep s : string) (skip : nat) (cur : list ascii)
    : list string :=
  match s with
  | EmptyString => [string_of_list_ascii (rev cur)]
  | String c r =>
      match skip with
      | S k => split_go sep r k cur
      | O =>
          if prefix sep s then
            string_of_list_ascii (rev cur) :: split_go sep r (String.length sep - 1) []
          else split_go sep r 0 (c :: cur)
      end
  end.

Definition split (sep s : string) : list string := split_go sep s 0 [].

(** [sep.join(xs)] *)
Fixpoint join (sep : string) (xs : list string) : string :=
  match xs with
  | [] => EmptyString
  | [x] => x
  | x :: r => x ++ sep ++ join sep r
  end.

(** [s[:n]] *)
Definition take (n : nat) (s : string) : string := substring 0 n s.

(** [xs[-1]] of a list that is never empty here *)
Definition last_or_empty (xs : list string) : string := last xs EmptyString.

(** [re.search(lit + r"(\w+)", s).group(1)]: the leftmost position where the
    literal is followed by at least one word character; the greedy group
    takes the maximal run of word characters. *)
Fixpoint word_run (s : string) : string :=
  match s with
  | String c r => if is_word_char c then String c (word_run r) else EmptyString
  | EmptyString => EmptyString
  end.

Fixpoint search_word_after (lit s : string) : option string :=
  match (if prefix lit s then word_run (substring (String.length lit) (String.length s) s)
         else EmptyString) with
  | EmptyString =>
      match s with
      | EmptyString => None
      | String _ r => search_word_after lit r
      end
  | w => Some w
  end.

(** a character other than the separator "/" *)
Definition not_slash (c : ascii) : bool := negb (Ascii.eqb c "/"%char).

End Py.

Import Py.

(** ** Messages as the extractor produces them: a dict with [role],
    [content] and [extraction_method]; roles are the strings "user",
    "assistant" and "unknown". *)
Record Msg := mkMsg {
  role : string;
  content : string;
  extraction_method : string
}.

(** ** [InsightExtractor] (src/services/insight_extractor.py) *)
Module InsightExtractor.

Definition name_patterns : list string :=
  ["my name is "; "i'm "; "i am "; "call me "].

(** the loop over [name_patterns], first match wins *)
Fixpoint find_name (pats : list string) (text : string) : option string :=
  match pats with
  | [] => None
  | p :: ps =>
      match search_word_after p text with
      | Some w => Some w
      | None => find_name ps text
      end
  end.

Fixpoint first_content_with_role (r : string) (msgs : list Msg) : option string :=
  match msgs with
  | [] => None
  | m :: ms => if String.eqb (role m) r then Some (content m)
               else first_content_with_role r ms
  end.

(** [f"conversation_{datetime.now().strftime(...)}"]; the clock reading is
    an argument *)
Definition placeholder (now : string) : string := "conversation_" ++ now.

(** [generate_title] *)
Definition generate_title (conversation_data : list Msg) (now : string) : string :=
  match first_content_with_role "user" conversation_data with
  | None | Some EmptyString => placeholder now
  | Some first_user_msg =>
      let user_name :=
        match find_name name_patterns (lower first_user_msg) with
        | Some n => n
        | None => "user"
        end in
      let words := firstn 5 (split_ws first_user_msg) in
      let summary :=
        join "_" (map (fun w => strip_chars ".,!?" (lower w))
                      (filter isalnum words)) in
      let title := user_name ++ "_" ++ summary in
      let title := take 50 (filter_chars
                     (fun c => is_word_char c || Ascii.eqb c "-"%char) title) in
      match title with
      | EmptyString => placeholder now
      | _ => title
      end
  end.

Record Insight := mkInsight {
  user_name : option string;
  user_background : string;
  main_topic : string;
  problem_described : string;
  solution_provided : string;
  tags : list string;
  sentiment : string;
  created_at : string
}.

Definition positive_words : list string :=
  ["good"; "great"; "excellent"; "thank"; "helpful"; "amazing"].
Definition negative_words : list string :=
  ["bad"; "terrible"; "awful"; "problem"; "issue"; "error"].

Definition contents_with_role (r : string) (msgs : list Msg) : list string :=
  map content (filter (fun m => String.eqb (role m) r) msgs).

(** [sum(1 for word in words if word in all_text)] *)
Definition keyword_count (words : list string) (all_text : string) : nat :=
  length (filter (fun w => contains w all_text) words).

Definition fallback_all_text (conversation_data : list Msg) : string :=
  lower (join " " (contents_with_role "user" conversation_data
                   ++ contents_with_role "assistant" conversation_data)%list).

Definition fallback_sentiment (conversation_data : list Msg) : string :=
  let all_text := fallback_all_text conversation_data in
  let pos_count := keyword_count positive_words all_text in
  let neg_count := keyword_count negative_words all_text in
  if Nat.ltb neg_count pos_count then "positive"
  else if Nat.ltb pos_count neg_count then "negative"
  else "neutral".

(** [_generate_fallback_insights] *)
Definition generate_fallback_insights (conversation_data : list Msg) (now : string)
    : Insight :=
  let user_messages := contents_with_role "user" conversation_data in
  let assistant_messages := contents_with_role "assistant" conversation_data in
  {| user_name :=
       match user_messages with
       | [] => None
       | m :: _ => find_name name_patterns (lower m)
       end;
     user_background := "Not specified";
     main_topic :=
       match user_messages with
       | [] => "General conversation"
       | m :: _ => join " " (firstn 5 (split_ws m))
       end;
     problem_described :=
       match user_messages with [] => "No problem specified" | m :: _ => m end;
     solution_provided :=
       match assistant_messages with [] => "No solution provided" | m :: _ => m end;
     tags := ["conversation"; "chat"];
     sentiment := fallback_sentiment conversation_data;
     created_at := now |}.

End InsightExtractor.

(** ** [ContentExtractor] (src/services/content_extractor.py)

    A rendered element is what the Playwright handle answers:
    [query_selector_all(sel)] (only the inner texts of the matched
    sub-elements are ever read), [get_attribute('class')],
    [get_attribute('data-testid')] and [inner_text()].  Each of these
    element calls may raise: [None] stands for the exception, and the
    source's handlers ([try]/[except] in [_determine_role_improved],
    [_extract_content] and the element loop of
    [_strategy_structured_extraction]) are modelled where they are.  A
    page is the answer of [page.query_selector_all] and
    [page.inner_text('body')], modelled as answering. *)
Module ContentExtractor.

Record Element := mkElement {
  (* [query_selector_all(sel)]: [None] when it raises, otherwise the
     matched elements, each by its [inner_text()] ([None] when that raises) *)
  el_query : string -> option (list (option string));
  (* [get_attribute(...)]: [None] when it raises, [Some None] for a missing
     attribute *)
  el_class : option (option string);
  el_testid : option (option string);
  (* [inner_text()]: [None] when it raises *)
  el_text : option string
}.

Record Page := mkPage {
  pg_query : string -> list Element;
  pg_body_text : string
}.

(** a double quote, for the CSS attribute selectors *)
Definition dq : string := String (ascii_of_nat 34) EmptyString.

(** [tag[attr*="v"]] *)
Definition sel_contains (tag attr v : string) : string :=
  tag ++ "[" ++ attr ++ "*=" ++ dq ++ v ++ dq ++ "]".

(** [get_attribute(...) or ''] *)
Definition attr_or_empty (a : option string) : string :=
  match a with Some v => v | None => EmptyString end.

Definition any_in (pats : list string) (s : string) : bool :=
  existsb (fun p => contains p s) pats.

(** the loop [for selector in ...: if await container.query_selector_all(
    selector): return ...]: [Some true] at the first selector with a match,
    [Some false] when none matches, [None] when a query raises first *)
Fixpoint avatar_match (e : Element) (selectors : list string) : option bool :=
  match selectors with
  | [] => Some false
  | sel :: rest =>
      match el_query e sel with
      | None => None
      | Some [] => avatar_match e rest
      | Some (_ :: _) => Some true
      end
  end.

(** [_guess_role_from_content] *)
Definition user_patterns : list string :=
  ["please"; "can you"; "how do i"; "what is"; "help me";
   "i want"; "i need"; "could you"; "would you"].
Definition assistant_patterns : list string :=
  ["i can help"; "here is"; "here are"; "to answer";
   "certainly"; "of course"; "i understand"; "let me"].

Definition guess_role_from_content (content : string) (position : nat) : string :=
  let content_lower := lower content in
  let user_score := length (filter (fun p => contains p content_lower) user_patterns) in
  let assistant_score :=
    length (filter (fun p => contains p content_lower) assistant_patterns) in
  if Nat.ltb assistant_score user_score then "user"
  else if Nat.ltb user_score assistant_score then "assistant"
  else if Nat.even position then "user" else "assistant".

(** [_determine_role_improved] *)
Definition user_avatar_selectors : list string :=
  [sel_contains "img" "alt" "User"; sel_contains "img" "alt" "user";
   sel_contains "img" "src" "user";
   sel_contains "" "aria-label" "User"; sel_contains "" "aria-label" "user";
   sel_contains "" "data-testid" "user"; ".user-avatar"].
Definition assistant_avatar_selectors : list string :=
  [sel_contains "img" "alt" "ChatGPT"; sel_contains "img" "alt" "Assistant";
   sel_contains "img" "alt" "assistant";
   sel_contains "img" "src" "chatgpt"; sel_contains "img" "src" "openai";
   sel_contains "" "aria-label" "ChatGPT"; sel_contains "" "aria-label" "Assistant";
   sel_contains "" "data-testid" "assistant"; ".assistant-avatar"].

(** every exception of the cascade is caught and ends in "unknown" *)
Definition determine_role_improved (container : Element) : string :=
  match avatar_match container user_avatar_selectors with
  | None => "unknown"
  | Some true => "user"
  | Some false =>
  match avatar_match container assistant_avatar_selectors with
  | None => "unknown"
  | Some true => "assistant"
  | Some false =>
  match el_class container, el_testid container with
  | Some cls, Some tid =>
      let container_html := attr_or_empty cls ++ attr_or_empty tid in
      if any_in ["user"; "human"] (lower container_html) then "user"
      else if any_in ["assistant"; "ai"; "chatgpt"; "bot"] (lower container_html)
      then "assistant"
      else
        match el_text container with
        | None | Some EmptyString => "unknown"
        | Some content => guess_role_from_content content 0
        end
  | _, _ => "unknown"
  end
  end
  end.

(** [_extract_content]: the first selector with a non-blank match wins (a
    query, or an [inner_text()] of a match, that raises skips the selector);
    otherwise the container's whole text, [""] when reading it raises *)
Fixpoint extract_content (container : Element) (selectors : list string) : string :=
  match selectors with
  | [] => match el_text container with Some t => strip t | None => EmptyString end
  | sel :: rest =>
      match el_query container sel with
      | None => extract_content container rest
      | Some elements =>
          if existsb (fun t => match t with None => true | Some _ => false end) elements
          then extract_content container rest
          else
            let texts := filter (fun t => negb (String.eqb t EmptyString))
                                (map (fun t => match t with
                                               | Some x => strip x
                                               | None => EmptyString end) elements) in
            match texts with
            | [] => extract_content container rest
            | _ => join (String "010"%char EmptyString) texts
            end
      end
  end.

(** the loop shared by the three selector strategies *)
Fixpoint messages_of_containers (containers : list Element)
    (content_selectors : list string) (method : string) : list Msg :=
  match containers with
  | [] => []
  | container :: rest =>
      let r := determine_role_improved container in
      let c := extract_content container content_selectors in
      let tail := messages_of_containers rest content_selectors method in
      if Nat.ltb 10 (String.length (strip c))
      then {| role := r; content := strip c; extraction_method := method |} :: tail
      else tail
  end.

(** the first container selector with a non-empty match *)
Fixpoint first_found (page : Page) (selectors : list string) : list Element :=
  match selectors with
  | [] => []
  | sel :: rest =>
      match pg_query page sel with
      | [] => first_found page rest
      | found => found
      end
  end.

(** [_strategy_modern_selectors] *)
Definition strategy_modern_selectors (page : Page) : list Msg :=
  let containers :=
    first_found page [sel_contains "" "data-testid" "conversation-turn";
                      sel_contains "" "data-testid" "message";
                      sel_contains "div" "class" "ConversationItem"] in
  messages_of_containers containers
    [".prose"; ".markdown"; sel_contains "" "class" "markdown";
     sel_contains "" "class" "prose"] "modern_selectors".

(** [_strategy_alternative_selectors] *)
Definition strategy_alternative_selectors (page : Page) : list Msg :=
  let containers :=
    pg_query page ("div[class*=" ++ dq ++ "group" ++ dq ++ "][class*=" ++ dq
                   ++ "w-full" ++ dq ++ "]") in
  messages_of_containers containers
    [sel_contains "div" "class" "markdown"; ".prose";
     sel_contains "div" "class" "prose"; ".message-content"]
    "alternative_selectors".

(** [_strategy_generic_selectors] *)
Definition strategy_generic_selectors (page : Page) : list Msg :=
  let containers :=
    pg_query page ("div.group, " ++ sel_contains "div" "class" "message") in
  messages_of_containers containers
    [sel_contains "div" "class" "markdown"; sel_contains "div" "class" "prose";
     ".message-content"; "p"] "generic_selectors".

(** [_looks_like_message] *)
Definition ui_patterns : list string :=
  ["sign up"; "log in"; "menu"; "navigation"; "footer";
   "cookie"; "privacy"; "terms"; "subscribe"].

Definition looks_like_message (text : string) : bool :=
  if Nat.ltb (String.length text) 20 || Nat.ltb 10000 (String.length text) then false
  else negb (any_in ui_patterns (lower text)).

(** the de-duplication loop; the key [hash(content[:100])] is modelled by
    the 100-character prefix itself *)
Fixpoint dedup_by_prefix (seen : list string) (msgs : list Msg) : list Msg :=
  match msgs with
  | [] => []
  | m :: rest =>
      let key := take 100 (content m) in
      if existsb (String.eqb key) seen then dedup_by_prefix seen rest
      else m :: dedup_by_prefix (key :: seen) rest
  end.

(** [_strategy_structured_extraction] *)
Definition strategy_structured_extraction (page : Page) : list Msg :=
  let potential_messages :=
    flat_map (fun elem =>
      match el_text elem with
      | None => []   (* [except: continue] *)
      | Some text =>
          if Nat.ltb 20 (String.length (strip text))
             && Nat.ltb (String.length (strip text)) 10000
             && looks_like_message (strip text)
          then [{| role := determine_role_improved elem; content := strip text;
                   extraction_method := "structured_extraction" |}]
          else []
      end)
      (pg_query page "div, article, section") in
  firstn 50 (dedup_by_prefix [] potential_messages).

(** [_strategy_fallback] *)
Definition nl : string := String "010"%char EmptyString.

Definition potential_splits : list string :=
  [nl ++ nl ++ nl; nl ++ nl ++ "User" ++ nl; nl ++ nl ++ "Assistant" ++ nl;
   nl ++ nl ++ "ChatGPT" ++ nl].

Fixpoint classify_segments (i : nat) (segments : list string) : list Msg :=
  match segments with
  | [] => []
  | segment :: rest =>
      let cleaned := strip segment in
      let tail := classify_segments (S i) rest in
      if Nat.ltb 50 (String.length cleaned) && Nat.ltb (String.length cleaned) 5000
      then {| role := guess_role_from_content cleaned i; content := cleaned;
              extraction_method := "fallback_pattern" |} :: tail
      else tail
  end.

Definition strategy_fallback (page : Page) : list Msg :=
  let segments :=
    fold_left (fun segments split_pattern =>
                 flat_map (split split_pattern) segments)
              potential_splits [pg_body_text page] in
  firstn 20 (classify_segments 0 segments).

(** [_validate_conversation_structure] *)
Definition has_role (r : string) (messages : list Msg) : bool :=
  existsb (fun m => String.eqb (role m) r) messages.

Definition validate_conversation_structure (messages : list Msg) : bool :=
  match messages with
  | [] => false
  | _ => has_role "user" messages && has_role "assistant" messages
  end.

(** [_extract_with_multiple_strategies]: the first strategy whose output is
    non-empty and valid, in list order; [[]] when none is *)
Fixpoint first_valid (strategies : list (Page -> list Msg)) (page : Page)
    : list Msg :=
  match strategies with
  | [] => []
  | strategy :: rest =>
      let conversation := strategy page in
      match conversation with
      | [] => first_valid rest page
      | _ => if validate_conversation_structure conversation then conversation
             else first_valid rest page
      end
  end.

Definition strategies : list (Page -> list Msg) :=
  [strategy_modern_selectors; strategy_alternative_selectors;
   strategy_generic_selectors; strategy_structured_extraction;
   strategy_fallback].

Definition extract_with_multiple_strategies (page : Page) : list Msg :=
  first_valid strategies page.

(** [extract_conversation]: [render] is [None] when launching the browser
    or [page.goto] raised, which the source catches and answers with [None] *)
Record Metadata := mkMetadata {
  total_messages : nat;
  user_messages : nat;
  assistant_messages : nat;
  md_extraction_method : string
}.

Record Transcript := mkTranscript {
  t_url : string;
  t_messages : list Msg;
  t_metadata : Metadata
}.

Definition error_patterns : list string :=
  ["can't load shared conversation"; "return to chatgpt"; "unable to load";
   "not found"; "something went wrong"].

Definition is_error_message (msg : Msg) : bool :=
  any_in error_patterns (lower (content msg)).

Definition count_role (r : string) (messages : list Msg) : nat :=
  length (filter (fun m => String.eqb (role m) r) messages).

Definition extract_conversation (url : string) (render : option Page)
    : option Transcript :=
  match render with
  | None => None
  | Some page =>
      let messages := extract_with_multiple_strategies page in
      let filtered_messages := filter (fun m => negb (is_error_message m)) messages in
      match filtered_messages with
      | [] => None
      | _ =>
          Some {| t_url := url;
                  t_messages := filtered_messages;
                  t_metadata :=
                    {| total_messages := length filtered_messages;
                       user_messages := count_role "user" filtered_messages;
                       assistant_messages := count_role "assistant" filtered_messages;
                       md_extraction_method := "playwright_multi_strategy" |} |}
      end
  end.

End ContentExtractor.

(** ** The pipeline and the scheduler (src/app.py) *)
Module App.

Import ContentExtractor.

(** [session.get(url, ...)]: [None] when it raises (timeout or client
    error); a response has its final URL, its status and its body, [None]
    when reading the body raises. *)
Record Response := mkResponse {
  resp_url : string;
  resp_status : nat;
  resp_text : option string
}.

Definition Session : Type := string -> option Response.

Definition share_prefix : string := "https://chatgpt.com/share/".

Definition error_indicators : list string :=
  ["conversation not found"; "this conversation is private"; "unable to load";
   "something went wrong"; "conversation has been deleted"].

Definition positive_indicators : list string :=
  ["chatgpt"; "conversation"; "message"; "user:"; "assistant:"].

(** the checks on a fetched response *)
Definition check_response (response : Response) : bool :=
  let final_url := resp_url response in
  if contains "auth.openai.com" final_url || contains "login" (lower final_url)
  then false
  else if Nat.eqb (resp_status response) 404 then false
  else if Nat.eqb (resp_status response) 403 then false
  else if Nat.leb 400 (resp_status response) then false
  else
    match resp_text response with
    | None => false
    | Some text =>
        let content_lower := lower text in
        if any_in error_indicators content_lower then false
        else
          let positive_count :=
            length (filter (fun i => contains i content_lower) positive_indicators) in
          Nat.leb 2 positive_count
    end.

(** [improved_validate_link], threading the number of [session.get] calls
    made so far. *)
Definition improved_validate_link (session : Session) (url : string) (calls : nat)
    : bool * nat :=
  if negb (prefix share_prefix url) then (false, calls)
  else
    let uuid_part := last_or_empty (split "/" url) in
    if Nat.ltb (String.length uuid_part) 20 then (false, calls)
    else
      match session url with
      | None => (false, S calls)
      | Some response => (check_response response, S calls)
      end.

(** The world a single [process_single_link] run meets: the transport, the
    rendered page, whether [generate_title] raises and the clock, whether
    the conversation file is written completely, what [extract_insights]
    answers and whether the insight file is written completely.  When a
    write does not complete, the [..._opened] flag tells whether
    [open(path, 'w')] had already created (or truncated) the file before
    [json.dump] raised, leaving a partial file behind. *)
Inductive InsightsOutcome :=
  | InsightsRaise
  | InsightsValue (v : option InsightExtractor.Insight).

Record Env := mkEnv {
  env_session : Session;
  env_render : option Page;
  env_title_raises : bool;
  env_now : string;
  env_save_conversation_ok : bool;
  env_conversation_opened : bool;
  env_insights : InsightsOutcome;
  env_save_insights_ok : bool;
  env_insights_opened : bool
}.

(** [AppState]: the process-wide counters, plus the transport calls made *)
Record AppState := mkAppState {
  links_generated : nat;
  valid_links : nat;
  insights_extracted : nat;
  failed_validations : nat;
  network_calls : nat
}.

(** observable effects of one run *)
Inductive Event :=
  | EvSaveConversation (path : string)
  | EvExtractInsights
  | EvSaveInsights (path : string)
  | EvPartialFile (path : string).

Record PipelineResult := mkPipelineResult {
  pr_url : string;
  pr_conversation_file : string;
  pr_insights_file : option string;
  pr_message_count : nat;
  pr_title : string
}.

Definition sanitize_title (title : string) : string :=
  let s := rstrip (filter_chars
             (fun c => is_alnum_char c || Ascii.eqb c " "%char
                       || Ascii.eqb c "-"%char || Ascii.eqb c "_"%char) title) in
  match s with
  | EmptyString => "Conversation"
  | _ => take 50 s
  end.

Definition with_validation (st : AppState) (calls : nat) (ok : bool) : AppState :=
  {| links_generated := links_generated st;
     valid_links := if ok then S (valid_links st) else valid_links st;
     insights_extracted := insights_extracted st;
     failed_validations := if ok then failed_validations st else S (failed_validations st);
     network_calls := calls |}.

Definition bump_insights (st : AppState) : AppState :=
  {| links_generated := links_generated st;
     valid_links := valid_links st;
     insights_extracted := S (insights_extracted st);
     failed_validations := failed_validations st;
     network_calls := network_calls st |}.

(** [process_single_link]: the result, the new state and the run's effects *)
Definition process_single_link (env : Env) (url : string) (st : AppState)
    : option PipelineResult * AppState * list Event :=
  let '(is_valid, calls) := improved_validate_link (env_session env) url (network_calls st) in
  let st := with_validation st calls is_valid in
  if negb is_valid then (None, st, []) else
  match extract_conversation url (env_render env) with
  | None => (None, st, [])
  | Some conversation_data =>
      let messages := t_messages conversation_data in
      if Nat.ltb (length messages) 1 then (None, st, []) else
      let title :=
        if env_title_raises env then "Untitled_Conversation"
        else InsightExtractor.generate_title messages (env_now env) in
      let uuid_str := last_or_empty (split "/" url) in
      let filename := sanitize_title title ++ "_" ++ uuid_str ++ ".json" in
      let filepath := "valid_jsons/" ++ filename in
      if negb (env_save_conversation_ok env) then
        (None, st, if env_conversation_opened env then [EvPartialFile filepath] else [])
      else
      let log := [EvSaveConversation filepath] in
      let transcript_only :=
        {| pr_url := url; pr_conversation_file := filepath; pr_insights_file := None;
           pr_message_count := length messages; pr_title := title |} in
      if Nat.leb 2 (length messages) then
        let log := (log ++ [EvExtractInsights])%list in
        match env_insights env with
        | InsightsRaise => (Some transcript_only, st, log)
        | InsightsValue None => (Some transcript_only, st, log)
        | InsightsValue (Some _) =>
            let insights_filepath := "insights_json/" ++ filename in
            if env_save_insights_ok env then
              (Some {| pr_url := url; pr_conversation_file := filepath;
                       pr_insights_file := Some insights_filepath;
                       pr_message_count := length messages; pr_title := title |},
               bump_insights st, (log ++ [EvSaveInsights insights_filepath])%list)
            else (Some transcript_only, st,
                  (log ++ if env_insights_opened env
                          then [EvPartialFile insights_filepath] else [])%list)
        end
      else (Some transcript_only, st, log)
  end.

(** [background_worker]: one batch is either the gathered task results,
    one per generated link ([[]] when [links] is empty, the [if links:]
    test), or an exception in the loop body. *)
Inductive TaskResult :=
  | TaskValue (truthy : bool)
  | TaskException.

Inductive Batch :=
  | BatchResults (results : list TaskResult)
  | BatchRaises.

Definition successful (results : list TaskResult) : nat :=
  length (filter (fun r => match r with TaskValue b => b | TaskException => false end)
                 results).

(** one iteration: the new [consecutive_failures] and the sleeps, in order *)
Definition worker_step (consecutive_failures : nat) (b : Batch) : nat * list nat :=
  match b with
  | BatchResults [] => (consecutive_failures, [15])
  | BatchResults results =>
      if Nat.eqb (successful results) 0 then
        let cf := S consecutive_failures in
        (cf, if Nat.leb 3 cf then [30; 15] else [15])
      else (0, [15])
  | BatchRaises => (S consecutive_failures, [10])
  end.

Fixpoint run_worker (consecutive_failures : nat) (batches : list Batch)
    : nat * list nat :=
  match batches with
  | [] => (consecutive_failures, [])
  | b :: rest =>
      let '(cf, sleeps) := worker_step consecutive_failures b in
      let '(cf', sleeps') := run_worker cf rest in
      (cf', sleeps ++ sleeps')%list
  end.

(** the extended cooldown sleeps of a run *)
Definition cooldowns (sleeps : list nat) : nat :=
  length (filter (Nat.eqb 30) sleeps).

(** a batch with at least one link and no successful result *)
Definition zero_success_batch (b : Batch) : bool :=
  match b with
  | BatchResults ((_ :: _) as results) => Nat.eqb (successful results) 0
  | _ => false
  end.

(** [extract_insights] raised or answered nothing, or its file could not
    be written *)
Definition insights_fail (env : Env) : bool :=
  match env_insights env with
  | InsightsRaise | InsightsValue None => true
  | InsightsValue (Some _) => negb (env_save_insights_ok env)
  end.

End App.

(** ** [LinkGenerator.generate_links] (src/services/link_generator.py)

    [uuid.uuid4()] draws 128 random bits and forces the version (4) and the
    RFC 4122 variant bits; [str(u)] is the 32-digit lower-case hex of the
    integer cut 8-4-4-4-12.  The k-th random draw is an argument. *)
Module LinkGenerator.

Local Open Scope Z_scope.

(** [UUID(bytes=os.urandom(16), version=4)].int *)
Definition uuid4_int (r : Z) : Z :=
  let i := r mod 2 ^ 128 in
  let i := Z.land i (Z.lnot (Z.shiftl 49152 48)) in
  let i := Z.lor i (Z.shiftl 32768 48) in
  let i := Z.land i (Z.lnot (Z.shiftl 61440 64)) in
  Z.lor i (Z.shiftl 4 76).

Definition hex_chars : string := "0123456789abcdef".

Definition hex_digit (n : Z) : ascii :=
  match get (Z.to_nat n) hex_chars with Some c => c | None => "0"%char end.

(** ['%0*x' % (width, i mod 16^width)]: [width] hex digits, most significant first *)
Fixpoint hex_fixed (i : Z) (width : nat) : string :=
  match width with
  | O => EmptyString
  | S w => String (hex_digit (Z.land (Z.shiftr i (4 * Z.of_nat w)) 15)) (hex_fixed i w)
  end.

(** [UUID.__str__] *)
Definition uuid_str (i : Z) : string :=
  let hex := hex_fixed i 32 in
  substring 0 8 hex ++ "-" ++ substring 8 4 hex ++ "-" ++ substring 12 4 hex
  ++ "-" ++ substring 16 4 hex ++ "-" ++ substring 20 12 hex.

Local Close Scope Z_scope.

(** [generate_links(count)] *)
Definition generate_links (count : nat) (draw : nat -> Z) : list string :=
  map (fun k => "https://chatgpt.com/share/" ++ uuid_str (uuid4_int (draw k)))
      (seq 0 count).

End LinkGenerator.

(** ** The [/start] and [/stop] endpoints (src/app.py) *)
Module Control.

Record RunState := mkRunState {
  is_running : bool;
  start_time : option string;
  background_task : bool   (* a task object is held *)
}.

(** an endpoint answers its message, or raises [HTTPException(400, ...)] *)
Inductive Reply :=
  | Ok (message : string)
  | HttpError (status : nat) (detail : string).

(** [start_processing] *)
Definition start_processing (now : string) (s : RunState) : Reply * RunState :=
  if is_running s then (HttpError 400 "Processing is already running", s)
  else (Ok "Processing started successfully",
        {| is_running := true; start_time := Some now; background_task := true |}).

(** [stop_processing]: the task is cancelled and awaited, the handle kept *)
Definition stop_processing (s : RunState) : Reply * RunState :=
  if negb (is_running s) then (HttpError 400 "Processing is not running", s)
  else (Ok "Processing stopped successfully",
        {| is_running := false; start_time := start_time s;
           background_task := background_task s |}).

End Control.

(** ** Concrete inputs used by the examples below *)
Module Samples.

Import ContentExtractor App.

(** the transcript of end-to-end scenario A *)
Definition scenario_A : list Msg :=
  [{| role := "user"; content := "my name is Sam, how do I reset a password";
      extraction_method := "modern_selectors" |};
   {| role := "assistant"; content := "Here is how: ...";
      extraction_method := "modern_selectors" |}].

(** one positive word three times, two distinct negative words once each *)
Definition repeated_positive : list Msg :=
  [{| role := "user"; content := "great great great";
      extraction_method := "modern_selectors" |};
   {| role := "assistant"; content := "bad issue";
      extraction_method := "modern_selectors" |}].

(** an element with no markers, no attributes, no keyword, non-empty text *)
Definition plain_element : Element :=
  {| el_query := fun _ => Some []; el_class := Some None; el_testid := Some None;
     el_text := Some "hello world" |}.

Definition zero_batch : Batch := BatchResults [TaskValue false].
Definition good_batch : Batch := BatchResults [TaskValue true; TaskValue false].

(** a turn container with an avatar matching [sel] and a [.prose] body *)
Definition turn (avatar text : string) : Element :=
  {| el_query := fun s => if String.eqb s avatar then Some [Some ""]
                          else if String.eqb s ".prose" then Some [Some text]
                          else Some [];
     el_class := Some None; el_testid := Some None; el_text := Some text |}.

Definition user_turn (text : string) : Element :=
  turn (sel_contains "img" "alt" "User") text.
Definition assistant_turn (text : string) : Element :=
  turn (sel_contains "img" "alt" "ChatGPT") text.

(** a page of the modern layout whose user turn is an error banner *)
Definition banner_page : Page :=
  {| pg_query := fun s =>
       if String.eqb s (sel_contains "" "data-testid" "conversation-turn")
       then [user_turn "Conversation not found, sorry";
             assistant_turn "Here is the long answer"]
       else [];
     pg_body_text := "" |}.

(** a page of the alternate layout only *)
Definition alternate_page : Page :=
  {| pg_query := fun s =>
       if String.eqb s ("div[class*=" ++ dq ++ "group" ++ dq ++ "][class*=" ++ dq
                        ++ "w-full" ++ dq ++ "]")
       then [user_turn "Please explain the scheduler";
             assistant_turn "Here is the explanation"]
       else [];
     pg_body_text := "" |}.

Definition share_url : string := "https://chatgpt.com/share/0123456789abcdef0123456789".

(** a transport that answers every link with a conversation page *)
Definition ok_session : Session :=
  fun u => Some {| resp_url := u; resp_status := 200;
                   resp_text := Some "ChatGPT conversation" |}.

Definition env_of (page : Page) (insights : InsightsOutcome) : Env :=
  {| env_session := ok_session; env_render := Some page;
     env_title_raises := false; env_now := "20261014_120000";
     env_save_conversation_ok := true; env_conversation_opened := true;
     env_insights := insights; env_save_insights_ok := true;
     env_insights_opened := true |}.

(** what [extract_conversation] answers on [banner_page] and
    [alternate_page] *)
Definition banner_transcript : Transcript :=
  {| t_url := share_url;
     t_messages := [{| role := "assistant"; content := "Here is the long answer";
                       extraction_method := "modern_selectors" |}];
     t_metadata := {| total_messages := 1; user_messages := 0;
                      assistant_messages := 1;
                      md_extraction_method := "playwright_multi_strategy" |} |}.

Definition alternate_transcript : Transcript :=
  {| t_url := share_url;
     t_messages := [{| role := "user"; content := "Please explain the scheduler";
                       extraction_method := "alternative_selectors" |};
                    {| role := "assistant"; content := "Here is the explanation";
                       extraction_method := "alternative_selectors" |}];
     t_metadata := {| total_messages := 2; user_messages := 1;
                      assistant_messages := 1;
                      md_extraction_method := "playwright_multi_strategy" |} |}.

Definition st0 : AppState :=
  {| links_generated := 0; valid_links := 0; insights_extracted := 0;
     failed_validations := 0; network_calls := 0 |}.

(** the messages whose role is "user" or "assistant" *)
Definition keep_known (m : Msg) : bool :=
  String.eqb (role m) "user" || String.eqb (role m) "assistant".

End Samples.

(** * Properties *)

Import ContentExtractor App Samples.

(** ** Title and fallback insight *)

(** C1 (counterexample): on scenario A the title is not
    "sam_my_name_is_sam_how". *)
Lemma generate_title_scenario_A_not_claimed :
  String.eqb (InsightExtractor.generate_title scenario_A "20261014_120000")
             "sam_my_name_is_sam_how" = false.
Proof. vm_compute. reflexivity. Qed.

(** the punctuation strip of [generate_title] never changes a token that
    passed [isalnum] *)
Lemma lower_char_alnum (c : ascii) :
  is_alnum_char c = true -> is_alnum_char (lower_char c) = true.
Proof. destruct c as [[] [] [] [] [] [] [] []]; vm_compute; tauto. Qed.

Lemma alnum_not_punct (c : ascii) :
  is_alnum_char c = true -> negb (mem_char c ".,!?") = true.
Proof. destruct c as [[] [] [] [] [] [] [] []]; vm_compute; tauto. Qed.

Lemma all_chars_lower_alnum (w : string) :
  all_chars is_alnum_char w = true -> all_chars is_alnum_char (lower w) = true.
Proof.
  induction w as [|c w IH]; simpl; [reflexivity|].
  intros H. apply andb_true_iff in H as [H1 H2].
  rewrite (lower_char_alnum c H1). exact (IH H2).
Qed.

Lemma all_chars_mono (p q : ascii -> bool) (s : string) :
  (forall c, p c = true -> q c = true) -> all_chars p s = true -> all_chars q s = true.
Proof.
  intros Hpq. induction s as [|c s IH]; simpl; [reflexivity|].
  intros H. apply andb_true_iff in H as [H1 H2]. rewrite (Hpq c H1). exact (IH H2).
Qed.

Lemma lstrip_by_keep (p : ascii -> bool) (s : string) :
  all_chars (fun c => negb (p c)) s = true -> lstrip_by p s = s.
Proof.
  destruct s as [|c s]; simpl; [reflexivity|].
  intros H. apply andb_true_iff in H as [H _]. apply negb_true_iff in H. rewrite H.
  reflexivity.
Qed.

Lemma all_chars_rev (p : ascii -> bool) (s : string) :
  all_chars p (rev_string s) = all_chars p s.
Proof.
  assert (F : forall t, all_chars p t = forallb p (list_ascii_of_string t)).
  { induction t as [|c t IH]; simpl; [reflexivity | now rewrite IH]. }
  unfold rev_string. rewrite !F, list_ascii_of_string_of_list_ascii.
  induction (list_ascii_of_string s) as [|x l IH]; simpl; [reflexivity|].
  rewrite forallb_app, IH. simpl. rewrite andb_true_r. apply andb_comm.
Qed.

Lemma strip_punct_alnum (w : string) :
  isalnum w = true -> strip_chars ".,!?" (lower w) = lower w.
Proof.
  intros H. destruct w as [|c r]; [discriminate|]. unfold isalnum in H.
  apply all_chars_lower_alnum in H.
  assert (K : all_chars (fun c => negb (mem_char c ".,!?")) (lower (String c r)) = true)
    by exact (all_chars_mono _ _ _ alnum_not_punct H).
  unfold strip_chars, rstrip_by. rewrite (lstrip_by_keep _ _ K).
  rewrite lstrip_by_keep by (rewrite all_chars_rev; exact K).
  unfold rev_string. rewrite list_ascii_of_string_of_list_ascii, rev_involutive.
  apply string_of_list_ascii_of_string.
Qed.

(** C1 (code defect): on scenario A, at any clock reading, [generate_title]
    returns "sam_my_name_is_how", not the intended "sam_my_name_is_sam_how".
    The name "sam" comes from "my name is"; of the first five tokens "my",
    "name", "is", "Sam,", "how" the token "Sam," fails [isalnum] and is
    dropped before [.strip('.,!?')] could remove its comma: that strip never
    changes a token that passed [isalnum], so it is dead code. *)
Theorem generate_title_scenario_A (now : string) :
  InsightExtractor.generate_title scenario_A now = "sam_my_name_is_how" /\
  (forall w, isalnum w = true -> strip_chars ".,!?" (lower w) = lower w).
Proof. split; [reflexivity | exact strip_punct_alnum]. Qed.

(** C2 (counterexample): one positive word three times against two
    distinct negative words once each gives "negative", not "positive". *)
Lemma fallback_sentiment_repeated_positive :
  String.eqb (InsightExtractor.sentiment
                (InsightExtractor.generate_fallback_insights repeated_positive
                   "20261014_120000")) "positive" = false.
Proof. vm_compute. reflexivity. Qed.

Lemma filter_length_le {A} (p : A -> bool) (l : list A) :
  length (filter p l) <= length l.
Proof.
  induction l as [|x l IH]; simpl; [lia|].
  destruct (p x); simpl; lia.
Qed.

(** C2 (amended): the fallback sentiment compares how many DISTINCT words of
    each fixed list occur (as substrings) in the lower-cased, space-joined
    text of the user messages followed by the assistant messages; the larger
    count wins and a tie is "neutral".  Each list word counts at most once,
    however often it occurs. *)
Theorem fallback_sentiment_distinct_words (msgs : list Msg) (now : string) :
  let text := lower (join " " (InsightExtractor.contents_with_role "user" msgs
                     ++ InsightExtractor.contents_with_role "assistant" msgs)%list) in
  let pos := length (filter (fun w => contains w text) InsightExtractor.positive_words) in
  let neg := length (filter (fun w => contains w text) InsightExtractor.negative_words) in
  InsightExtractor.sentiment (InsightExtractor.generate_fallback_insights msgs now)
    = (if Nat.ltb neg pos then "positive"
       else if Nat.ltb pos neg then "negative" else "neutral")
  /\ pos <= 6 /\ neg <= 6.
Proof.
  intros text pos neg. split; [reflexivity|].
  split; [apply (filter_length_le _ InsightExtractor.positive_words)
         |apply (filter_length_le _ InsightExtractor.negative_words)].
Qed.

(** ** Role classification *)

Lemma existsb_false_filter_nil {A} (p : A -> bool) (l : list A) :
  existsb p l = false -> filter p l = [].
Proof.
  induction l as [|x l IH]; simpl; [reflexivity|].
  intros H. apply orb_false_iff in H as [Hx Hl]. rewrite Hx. exact (IH Hl).
Qed.

Lemma guess_role_is_user_or_assistant (content : string) (position : nat) :
  guess_role_from_content content position = "user"
  \/ guess_role_from_content content position = "assistant".
Proof.
  unfold guess_role_from_content.
  destruct (Nat.ltb _ _); [now left|].
  destruct (Nat.ltb _ _); [now right|].
  destruct (Nat.even position); [now left|now right].
Qed.

(** C3 (counterexample): a container with no marker, no attribute and the
    keyword-free text "hello world" is classified "user", not "unknown". *)
Lemma determine_role_plain_element :
  String.eqb (determine_role_improved plain_element) "unknown" = false.
Proof. vm_compute. reflexivity. Qed.

(** C3 (amended): when no avatar marker matches and the class/test-id text
    names no role, [_determine_role_improved] returns "unknown" exactly when
    the container's text is empty or one of the DOM calls of the cascade
    raises (the [except] branch); a non-empty text read without error goes
    to content scoring at position 0, whose tie-break makes a keyword-free
    text "user". *)
Theorem determine_role_without_markers (c : Element)
  (Hu : avatar_match c user_avatar_selectors <> Some true)
  (Ha : avatar_match c assistant_avatar_selectors <> Some true)
  (Hattr : forall cls tid, el_class c = Some cls -> el_testid c = Some tid ->
     any_in ["user"; "human"] (lower (attr_or_empty cls ++ attr_or_empty tid)) = false /\
     any_in ["assistant"; "ai"; "chatgpt"; "bot"]
       (lower (attr_or_empty cls ++ attr_or_empty tid)) = false) :
  (determine_role_improved c = "unknown" <->
     el_text c = None \/ el_text c = Some "" \/
     avatar_match c user_avatar_selectors = None \/
     avatar_match c assistant_avatar_selectors = None \/
     el_class c = None \/ el_testid c = None) /\
  (forall t, el_text c = Some t -> t <> "" ->
   avatar_match c user_avatar_selectors = Some false ->
   avatar_match c assistant_avatar_selectors = Some false ->
   el_class c <> None -> el_testid c <> None ->
   any_in user_patterns (lower t) = false ->
   any_in assistant_patterns (lower t) = false ->
   determine_role_improved c = "user").
Proof.
  unfold determine_role_improved.
  destruct (avatar_match c user_avatar_selectors) as [[|]|];
    [congruence| |split; [tauto|intros; discriminate]].
  destruct (avatar_match c assistant_avatar_selectors) as [[|]|];
    [congruence| |split; [tauto|intros; discriminate]].
  destruct (el_class c) as [cls|] eqn:Ec;
    [|split; [tauto|intros; congruence]].
  destruct (el_testid c) as [tid|] eqn:Et;
    [|split; [tauto|intros; congruence]].
  destruct (Hattr cls tid eq_refl eq_refl) as [Hh Hb]. rewrite Hh, Hb.
  destruct (el_text c) as [[|ch rest]|] eqn:Ex.
  - split; [tauto|]. intros t [= <-] Hne. congruence.
  - split.
    + split; [|intros [H|[H|[H|[H|[H|H]]]]]; discriminate].
      destruct (guess_role_is_user_or_assistant (String ch rest) 0) as [H|H];
        rewrite H; discriminate.
    + intros t [= <-] _ _ _ _ _ Hnu Hna. unfold guess_role_from_content.
      unfold any_in in Hnu, Hna.
      rewrite (existsb_false_filter_nil _ _ Hnu), (existsb_false_filter_nil _ _ Hna).
      reflexivity.
  - split; [tauto|]. intros t H. discriminate.
Qed.

(** the witness of C3: a container with empty text *)
Lemma determine_role_without_markers_witness :
  determine_role_improved
    {| el_query := fun _ => Some []; el_class := Some (Some "flex");
       el_testid := Some None; el_text := Some "" |} = "unknown".
Proof.
  apply (proj2 (proj1 (determine_role_without_markers
    {| el_query := fun _ => Some []; el_class := Some (Some "flex");
       el_testid := Some None; el_text := Some "" |}
    ltac:(vm_compute; discriminate) ltac:(vm_compute; discriminate)
    ltac:(intros cls tid [= <-] [= <-]; vm_compute; split; reflexivity)))).
  right. left. reflexivity.
Defined.

(** ** Scheduler *)

(** C4 (counterexample): four zero-success batches from a fresh counter
    sleep the extended cooldown twice (after the third and the fourth). *)
Lemma scheduler_four_zero_batches :
  cooldowns (snd (run_worker 0 [zero_batch; zero_batch; zero_batch; zero_batch])) = 2.
Proof. reflexivity. Qed.

Lemma worker_step_zero (cf : nat) (b : Batch) :
  zero_success_batch b = true ->
  worker_step cf b = (S cf, if Nat.leb 3 (S cf) then [30; 15] else [15]).
Proof.
  destruct b as [[|r rs]|]; simpl; try discriminate.
  intros H. rewrite H. reflexivity.
Qed.

Lemma worker_step_success (cf : nat) (results : list TaskResult) :
  0 < successful results -> worker_step cf (BatchResults results) = (0, [15]).
Proof.
  destruct results as [|r rs]; [unfold successful; simpl; intros; exfalso; lia|].
  intros H. unfold worker_step.
  destruct (Nat.eqb_spec (successful (r :: rs)) 0); [lia|reflexivity].
Qed.

Lemma cooldowns_app (xs ys : list nat) :
  cooldowns (xs ++ ys) = cooldowns xs + cooldowns ys.
Proof. unfold cooldowns. rewrite filter_app, length_app. reflexivity. Qed.

Lemma run_worker_app (cf : nat) (bs cs : list Batch) :
  run_worker cf (bs ++ cs) =
  (fst (run_worker (fst (run_worker cf bs)) cs),
   snd (run_worker cf bs) ++ snd (run_worker (fst (run_worker cf bs)) cs))%list.
Proof.
  revert cf. induction bs as [|b bs IH]; intros cf; simpl.
  - destruct (run_worker cf cs); reflexivity.
  - destruct (worker_step cf b) as [cf1 s1].
    rewrite IH.
    destruct (run_worker cf1 bs) as [cf2 s2]; simpl.
    destruct (run_worker cf2 cs) as [cf3 s3]; simpl.
    rewrite app_assoc. reflexivity.
Qed.

Lemma run_worker_zero_batches (cf : nat) (bs : list Batch) :
  forallb zero_success_batch bs = true ->
  fst (run_worker cf bs) = cf + length bs /\
  cooldowns (snd (run_worker cf bs)) = length bs - (2 - cf).
Proof.
  revert cf. induction bs as [|b bs IH]; intros cf H; simpl; [unfold cooldowns; simpl; split; lia|].
  apply andb_true_iff in H as [Hb Hbs].
  rewrite (worker_step_zero cf b Hb).
  destruct (IH (S cf) Hbs) as [IH1 IH2].
  destruct (run_worker (S cf) bs) as [cf' s'] eqn:E; simpl in *.
  split; [lia|].
  rewrite cooldowns_app, IH2.
  destruct cf as [|[|cf]]; unfold cooldowns; simpl; lia.
Qed.

(** C4 (amended): each zero-success batch increments the counter and a
    batch with at least one success resets it to 0 (with only the 15 s
    inter-batch sleep); the 30 s cooldown fires after EVERY zero-success
    batch that leaves the counter at 3 or more, so a run of k zero-success
    batches from counter cf has k - (2 - cf) cooldowns (k - 2 from a reset
    counter), not one per threshold crossing. *)
Theorem scheduler_cooldown_every_batch_past_threshold
  (cf : nat) (bs : list Batch) (results : list TaskResult)
  (Hz : forallb zero_success_batch bs = true)
  (Hs : 0 < successful results) :
  fst (run_worker cf bs) = cf + length bs /\
  cooldowns (snd (run_worker cf bs)) = length bs - (2 - cf) /\
  run_worker cf (bs ++ [BatchResults results])%list =
    (0, snd (run_worker cf bs) ++ [15])%list.
Proof.
  destruct (run_worker_zero_batches cf bs Hz) as [H1 H2].
  split; [exact H1|]. split; [exact H2|].
  rewrite run_worker_app. cbn [run_worker].
  rewrite (worker_step_success _ _ Hs). cbn [fst snd].
  rewrite app_nil_r. reflexivity.
Qed.

(** the witness of C4: four failed batches, then a batch with a success *)
Lemma scheduler_cooldown_every_batch_past_threshold_witness :
  fst (run_worker 0 [zero_batch; zero_batch; zero_batch; zero_batch]) = 4 /\
  cooldowns (snd (run_worker 0 [zero_batch; zero_batch; zero_batch; zero_batch])) = 2.
Proof.
  destruct (scheduler_cooldown_every_batch_past_threshold 0
              [zero_batch; zero_batch; zero_batch; zero_batch]
              [TaskValue true] eq_refl ltac:(unfold successful; simpl; lia)) as [H1 [H2 _]].
  split; [exact H1 | exact H2].
Defined.

(** ** Strategy chain and the error-banner filter *)

(** [first_valid] returns the output of the first strategy that validates,
    after a prefix of strategies that all fail validation; [[]] when none
    validates. *)
Lemma first_valid_characterization (ss : list (Page -> list Msg)) (page : Page) :
  (exists pre s post, ss = (pre ++ s :: post)%list /\
     forallb (fun s' => negb (validate_conversation_structure (s' page))) pre = true /\
     validate_conversation_structure (s page) = true /\
     first_valid ss page = s page)
  \/ (forallb (fun s' => negb (validate_conversation_structure (s' page))) ss = true
      /\ first_valid ss page = []).
Proof.
  induction ss as [|s ss IH]; [right; split; reflexivity|].
  assert (Hstep : first_valid (s :: ss) page =
                  if validate_conversation_structure (s page) then s page
                  else first_valid ss page)
    by (simpl; destruct (s page); reflexivity).
  rewrite Hstep.
  destruct (validate_conversation_structure (s page)) eqn:Hv.
  - left. exists [], s, ss. repeat split; assumption.
  - destruct IH as [(pre & s' & post & Heq & Hpre & Hs' & Hr) | [Hall Hr]].
    + left. exists (s :: pre), s', post. subst ss. cbn [forallb].
      rewrite Hv, Hpre. repeat split; assumption.
    + right. cbn [forallb]. rewrite Hv, Hall. split; [reflexivity | assumption].
Qed.

(** C5: [extract] runs the five strategies in their fixed order and returns
    the first output that is structurally valid (non-empty, with a "user"
    and an "assistant" message); in particular when strategy 1 is not valid
    and strategy 2 is, it returns strategy 2's output. *)
Theorem extract_returns_first_valid_strategy (page : Page) :
  ((exists pre s post, strategies = (pre ++ s :: post)%list /\
      forallb (fun s' => negb (validate_conversation_structure (s' page))) pre = true /\
      validate_conversation_structure (s page) = true /\
      extract_with_multiple_strategies page = s page)
   \/ (forallb (fun s' => negb (validate_conversation_structure (s' page))) strategies
         = true /\ extract_with_multiple_strategies page = []))
  /\ (validate_conversation_structure (strategy_modern_selectors page) = false ->
      validate_conversation_structure (strategy_alternative_selectors page) = true ->
      extract_with_multiple_strategies page = strategy_alternative_selectors page).
Proof.
  split; [apply first_valid_characterization|]. intros H1 H2.
  unfold extract_with_multiple_strategies, strategies. cbn [first_valid].
  destruct (strategy_modern_selectors page) as [|m ms];
    [|rewrite H1];
    destruct (strategy_alternative_selectors page) as [|a al];
    try discriminate H2; rewrite H2; reflexivity.
Qed.

(** the witness of C5: a page of the alternate layout only *)
Lemma extract_returns_first_valid_strategy_witness :
  extract_with_multiple_strategies alternate_page
  = strategy_alternative_selectors alternate_page.
Proof.
  exact (proj2 (extract_returns_first_valid_strategy alternate_page)
                  ltac:(vm_compute; reflexivity) ltac:(vm_compute; reflexivity)).
Defined.

Lemma forallb_filter_self {A} (p : A -> bool) (l : list A) :
  forallb p (filter p l) = true.
Proof.
  induction l as [|x l IH]; simpl; [reflexivity|].
  destruct (p x) eqn:E; simpl; [rewrite E|]; assumption.
Qed.

(** C6: the messages kept are exactly the strategy output without the
    messages whose lower-cased content contains an error-banner phrase; when
    none is left the result is [None] (no exception), and a failed render is
    [None] too. *)
Theorem extract_conversation_filters_banners (url : string) (page : Page) :
  let kept := filter (fun m => negb (is_error_message m))
                     (extract_with_multiple_strategies page) in
  option_map t_messages (extract_conversation url (Some page))
    = match kept with [] => None | _ => Some kept end
  /\ forallb (fun m => negb (is_error_message m)) kept = true
  /\ extract_conversation url None = None.
Proof.
  intros kept. split; [|split; [apply forallb_filter_self | reflexivity]].
  unfold extract_conversation. fold kept.
  destruct kept; reflexivity.
Qed.

(** C9: a returned transcript's metadata counts its own (filtered) message
    list: total, "user" and "assistant" messages. *)
Theorem extract_conversation_metadata_consistent (url : string) (render : option Page) :
  match extract_conversation url render with
  | None => True
  | Some t =>
      total_messages (t_metadata t) = length (t_messages t) /\
      user_messages (t_metadata t) =
        length (filter (fun m => String.eqb (role m) "user") (t_messages t)) /\
      assistant_messages (t_metadata t) =
        length (filter (fun m => String.eqb (role m) "assistant") (t_messages t))
  end.
Proof.
  unfold extract_conversation.
  destruct render as [page|]; [|exact I].
  destruct (filter _ _); [exact I|].
  simpl. repeat split.
Qed.

(** ** Link validation *)

Lemma length_string_of_list_ascii (l : list ascii) :
  String.length (string_of_list_ascii l) = length l.
Proof. induction l as [|c l IH]; simpl; [reflexivity | now rewrite IH]. Qed.

Lemma split_slash_nonnil (s : string) (cur : list ascii) :
  split_go "/" s 0 cur <> [].
Proof.
  revert cur. induction s as [|c s IH]; intros cur; cbn [split_go]; [discriminate|].
  destruct (prefix "/" (String c s)); [discriminate | apply IH].
Qed.

(** the text after the last "/" is no longer than the string *)
Lemma last_split_slash_le (s : string) (cur : list ascii) :
  String.length (last (split_go "/" s 0 cur) EmptyString) <= String.length s + length cur.
Proof.
  revert cur. induction s as [|c s IH]; intros cur; cbn [split_go].
  - simpl. rewrite length_string_of_list_ascii, length_rev. lia.
  - destruct (prefix "/" (String c s)); simpl String.length; simpl Nat.sub.
    + pose proof (split_slash_nonnil s []) as Hne.
      specialize (IH []). simpl in IH.
      destruct (split_go "/" s 0 []) as [|x l]; [contradiction|].
      simpl in *. lia.
    + specialize (IH (c :: cur)). simpl in IH. lia.
Qed.

Lemma uuid_part_of_share_url (suf : string) :
  String.length (last_or_empty (split "/" (share_prefix ++ suf))) <= String.length suf.
Proof.
  unfold last_or_empty, split, share_prefix. cbn.
  replace (prefix "" suf) with true by (destruct suf; reflexivity).
  pose proof (split_slash_nonnil suf []) as Hne.
  pose proof (last_split_slash_le suf []) as Hle. simpl in Hle.
  destruct (split_go "/" suf 0 []) as [|x l]; [contradiction|].
  change (last ("share" :: x :: l) "") with (last (x :: l) ""). lia.
Qed.

Lemma prefix_share_url (suf : string) : prefix share_prefix (share_prefix ++ suf) = true.
Proof. destruct suf; reflexivity. Qed.

(** C7: a link without the share prefix, or whose text after the prefix is
    shorter than 20 characters, is rejected whatever the transport answers,
    and the transport is never called (the call count is unchanged). *)
Theorem validate_link_rejects_malformed_without_fetch
  (session : Session) (url : string) (calls : nat)
  (Hbad : prefix share_prefix url = false
          \/ exists suf, url = share_prefix ++ suf /\ String.length suf < 20) :
  improved_validate_link session url calls = (false, calls).
Proof.
  unfold improved_validate_link.
  destruct Hbad as [Hp | (suf & -> & Hlen)].
  - rewrite Hp. reflexivity.
  - rewrite prefix_share_url. simpl negb. cbv iota.
    pose proof (uuid_part_of_share_url suf) as Hu.
    destruct (Nat.ltb_spec (String.length (last_or_empty (split "/" (share_prefix ++ suf)))) 20);
      [reflexivity | lia].
Qed.

(** the witness of C7: a short share link and a transport that would answer *)
Lemma validate_link_rejects_malformed_without_fetch_witness :
  improved_validate_link ok_session "https://chatgpt.com/share/short" 7 = (false, 7).
Proof.
  apply validate_link_rejects_malformed_without_fetch.
  right. exists "short". split; [reflexivity | simpl; lia].
Defined.

(** ** The per-link pipeline *)

Lemma extract_conversation_nonempty (url : string) (render : option Page) (t : Transcript) :
  extract_conversation url render = Some t -> t_messages t <> [].
Proof.
  unfold extract_conversation.
  destruct render as [page|]; [|discriminate].
  destruct (filter _ _) as [|m ms]; [discriminate|].
  intros H. injection H as <-. discriminate.
Qed.

Ltac no_insight_file :=
  let p := fresh "p" in
  let Hin := fresh "Hin" in
  intros p Hin; simpl in Hin; repeat destruct Hin as [Hin|Hin]; try discriminate; contradiction.

(** C8: insight generation (the [EvExtractInsights] effect) happens only for
    a transcript of at least 2 messages; once the link is valid and the
    conversation file is written, a transcript of fewer than 2 messages, or
    an insight step that raises, answers nothing or cannot be written, still
    ends with the conversation file written and a transcript-only result. *)
Theorem pipeline_insights_best_effort (env : Env) (url : string) (st : AppState)
  (t : Transcript)
  (Hext : extract_conversation url (env_render env) = Some t) :
  let '(res, _, log) := process_single_link env url st in
  (In EvExtractInsights log -> 2 <= length (t_messages t)) /\
  (fst (improved_validate_link (env_session env) url (network_calls st)) = true ->
   env_save_conversation_ok env = true ->
   (length (t_messages t) < 2 \/ insights_fail env = true) ->
   exists r, res = Some r /\ pr_insights_file r = None /\
     In (EvSaveConversation (pr_conversation_file r)) log /\
     (forall p, ~ In (EvSaveInsights p) log)).
Proof.
  pose proof (extract_conversation_nonempty _ _ _ Hext) as Hne.
  unfold process_single_link. cbv zeta.
  destruct (improved_validate_link (env_session env) url (network_calls st))
    as [ok calls] eqn:Ev.
  destruct ok; cbn [negb fst].
  2: { split; [intros [] | intros H; discriminate]. }
  rewrite Hext.
  assert (E1 : Nat.ltb (length (t_messages t)) 1 = false)
    by (destruct (t_messages t); [congruence | reflexivity]).
  rewrite E1.
  destruct (env_save_conversation_ok env) eqn:Es; cbn [negb].
  2: { split; [|intros _ H; discriminate].
       destruct (env_conversation_opened env); simpl; intros H; intuition discriminate. }
  unfold insights_fail.
  destruct (Nat.leb_spec 2 (length (t_messages t))) as [Hle | Hlt].
  - destruct (env_insights env) as [|[i|]];
      [| destruct (env_save_insights_ok env); [|destruct (env_insights_opened env)] |].
    all: split; [intros _; exact Hle|].
    all: intros _ _ Hf.
    all: try (destruct Hf as [Hf|Hf]; [lia | discriminate]).
    all: eexists; split; [reflexivity|]; split; [reflexivity|];
         split; [simpl; tauto | no_insight_file].
  - split; [intros [H|[]]; discriminate|].
    intros _ _ _. eexists; split; [reflexivity|]; split; [reflexivity|];
      split; [simpl; tauto | no_insight_file].
Qed.

(** the witness of C8: a two-message transcript whose insight step raises *)
Lemma pipeline_insights_best_effort_witness :
  let '(res, _, log) :=
    process_single_link (env_of alternate_page InsightsRaise) share_url st0 in
  (In EvExtractInsights log -> 2 <= length (t_messages alternate_transcript)) /\
  (fst (improved_validate_link ok_session share_url 0) = true ->
   true = true ->
   (length (t_messages alternate_transcript) < 2 \/
    insights_fail (env_of alternate_page InsightsRaise) = true) ->
   exists r, res = Some r /\ pr_insights_file r = None /\
     In (EvSaveConversation (pr_conversation_file r)) log /\
     (forall p, ~ In (EvSaveInsights p) log)).
Proof.
  exact (pipeline_insights_best_effort (env_of alternate_page InsightsRaise)
           share_url st0 alternate_transcript ltac:(vm_compute; reflexivity)).
Defined.

(** C10: the structural check runs on the strategy output before the banner
    filter, so a page whose only user turn is an error banner yields a
    non-empty transcript with no "user" message, and the pipeline keeps it
    (a result is returned, not a discard). *)
Theorem extract_conversation_can_lose_a_role :
  exists page t,
    validate_conversation_structure (extract_with_multiple_strategies page) = true /\
    extract_conversation share_url (Some page) = Some t /\
    t_messages t <> [] /\
    has_role "user" (t_messages t) = false /\
    user_messages (t_metadata t) = 0 /\
    exists r st' log,
      process_single_link (env_of page (InsightsValue None)) share_url st0
        = (Some r, st', log).
Proof.
  exists banner_page, banner_transcript.
  split; [vm_compute; reflexivity|].
  split; [vm_compute; reflexivity|].
  split; [discriminate|].
  split; [reflexivity|].
  split; [reflexivity|].
  destruct (process_single_link (env_of banner_page (InsightsValue None)) share_url st0)
    as [[res st'] log] eqn:E.
  vm_compute in E. injection E as <- <- <-.
  do 3 eexists. reflexivity.
Qed.

(** * Further properties of the modelled code *)

(** ** String facts *)

Lemma string_length_app (a b : string) :
  String.length (a ++ b) = String.length a + String.length b.
Proof. induction a as [|c a IH]; simpl; [reflexivity | now rewrite IH]. Qed.

Lemma string_app_nil_r (a : string) : a ++ "" = a.
Proof. induction a as [|c a IH]; simpl; [reflexivity | now rewrite IH]. Qed.

Lemma string_app_assoc (a b c : string) : (a ++ b) ++ c = a ++ (b ++ c).
Proof. induction a as [|x a IH]; simpl; [reflexivity | now rewrite IH]. Qed.

Lemma string_of_list_ascii_app (l l' : list ascii) :
  string_of_list_ascii (l ++ l') = string_of_list_ascii l ++ string_of_list_ascii l'.
Proof. induction l as [|c l IH]; simpl; [reflexivity | now rewrite IH]. Qed.

Lemma all_chars_app (p : ascii -> bool) (a b : string) :
  all_chars p (a ++ b) = all_chars p a && all_chars p b.
Proof.
  induction a as [|c a IH]; simpl; [reflexivity|].
  rewrite IH. apply andb_assoc.
Qed.

Lemma all_chars_substring (p : ascii -> bool) (s : string) (n m : nat) :
  all_chars p s = true -> all_chars p (substring n m s) = true.
Proof.
  revert n m. induction s as [|c s IH]; intros n m H.
  - destruct n, m; reflexivity.
  - simpl in H. apply andb_true_iff in H as [Hc Hs].
    destruct n as [|n]; simpl.
    + destruct m as [|m]; simpl; [reflexivity|]. rewrite Hc. exact (IH 0 m Hs).
    + exact (IH n m Hs).
Qed.

Lemma substring_length (s : string) (n m : nat) :
  n + m <= String.length s -> String.length (substring n m s) = m.
Proof.
  revert n m. induction s as [|c s IH]; intros n m H.
  - simpl in H. assert (n = 0 /\ m = 0) as [-> ->] by lia. reflexivity.
  - destruct n as [|n]; simpl in *.
    + destruct m as [|m]; simpl; [reflexivity|]. f_equal. apply (IH 0 m). lia.
    + apply IH. lia.
Qed.

Lemma substring_length_le (s : string) (n m : nat) :
  String.length (substring n m s) <= m.
Proof.
  revert n m. induction s as [|c s IH]; intros n m.
  - destruct n, m; simpl; lia.
  - destruct n as [|n]; simpl.
    + destruct m as [|m]; simpl; [lia|]. specialize (IH 0 m). lia.
    + apply IH.
Qed.

(** splitting on "/" a string with no "/" in it gives one piece *)
Lemma split_go_no_slash (u : string) (cur : list ascii) :
  all_chars not_slash u = true ->
  split_go "/" u 0 cur = [string_of_list_ascii (rev cur) ++ u].
Proof.
  revert cur. induction u as [|c u IH]; intros cur H.
  - simpl. now rewrite string_app_nil_r.
  - simpl in H. apply andb_true_iff in H as [Hc Hu].
    cbn [split_go].
    assert (Hp : prefix "/" (String c u) = false).
    { cbn [prefix]. destruct (ascii_dec "/"%char c) as [<-|]; [discriminate|reflexivity]. }
    rewrite Hp, (IH (c :: cur) Hu). cbn [rev].
    rewrite string_of_list_ascii_app, string_app_assoc. reflexivity.
Qed.

(** ** Generated links *)

Lemma hex_digit_not_slash (n : Z) : not_slash (LinkGenerator.hex_digit n) = true.
Proof.
  unfold LinkGenerator.hex_digit. generalize (Z.to_nat n) as k. intros k.
  do 16 (destruct k as [|k]; [reflexivity|]). reflexivity.
Qed.

Lemma hex_fixed_shape (i : Z) (w : nat) :
  String.length (LinkGenerator.hex_fixed i w) = w /\
  all_chars not_slash (LinkGenerator.hex_fixed i w) = true.
Proof.
  induction w as [|w [IHl IHc]]; simpl; [split; reflexivity|].
  rewrite IHl, IHc, hex_digit_not_slash. split; reflexivity.
Qed.

(** [str(uuid)] is 36 characters long and has no "/" *)
Lemma uuid_str_shape (i : Z) :
  String.length (LinkGenerator.uuid_str i) = 36 /\
  all_chars not_slash (LinkGenerator.uuid_str i) = true.
Proof.
  destruct (hex_fixed_shape i 32) as [Hl Hc].
  unfold LinkGenerator.uuid_str.
  set (hex := LinkGenerator.hex_fixed i 32) in *. split.
  - rewrite !string_length_app.
    rewrite !substring_length by lia. reflexivity.
  - rewrite !all_chars_app, !all_chars_substring by exact Hc. reflexivity.
Qed.

(** the piece after the last "/" of a share link with a slash-free suffix *)
Lemma last_split_share_url (u : string) :
  all_chars not_slash u = true ->
  last_or_empty (split "/" (share_prefix ++ u)) = u.
Proof.
  intros Hu. unfold last_or_empty, split, share_prefix. cbn.
  replace (prefix "" u) with true by (destruct u; reflexivity).
  rewrite (split_go_no_slash u [] Hu). reflexivity.
Qed.

(** X1: [generate_links(count)] returns [count] links, each the share prefix
    followed by a 36-character UUID; each passes the format stage of
    [improved_validate_link], which therefore makes exactly one transport
    call for it. *)
Theorem generate_links_reach_transport (count : nat) (draw : nat -> Z) :
  length (LinkGenerator.generate_links count draw) = count /\
  forall l, In l (LinkGenerator.generate_links count draw) ->
    exists u, l = share_prefix ++ u /\ String.length u = 36 /\
      last_or_empty (split "/" l) = u /\
      forall session calls, snd (improved_validate_link session l calls) = S calls.
Proof.
  unfold LinkGenerator.generate_links. split.
  - rewrite length_map, length_seq. reflexivity.
  - intros l Hin. apply in_map_iff in Hin as (k & <- & _).
    set (u := LinkGenerator.uuid_str (LinkGenerator.uuid4_int (draw k))).
    destruct (uuid_str_shape (LinkGenerator.uuid4_int (draw k))) as [Hl Hc].
    fold u in Hl, Hc.
    change ("https://chatgpt.com/share/" ++ u) with (share_prefix ++ u).
    exists u. split; [reflexivity|]. split; [exact Hl|].
    split; [exact (last_split_share_url u Hc)|].
    intros session calls. unfold improved_validate_link.
    rewrite prefix_share_url, (last_split_share_url u Hc), Hl. simpl.
    match goal with |- context [session ?x] => destruct (session x) end;
      reflexivity.
Qed.

(** ** Extraction strategies *)

Lemma in_firstn_in {A} (n : nat) (x : A) (l : list A) : In x (firstn n l) -> In x l.
Proof.
  intros H. rewrite <- (firstn_skipn n l). apply in_or_app. left. exact H.
Qed.

Lemma NoDup_firstn_of {A} (n : nat) (l : list A) : NoDup l -> NoDup (firstn n l).
Proof.
  intros H. rewrite <- (firstn_skipn n l) in H. exact (NoDup_app_remove_r _ _ H).
Qed.

Lemma existsb_eqb_false (k : string) (seen : list string) :
  existsb (String.eqb k) seen = false <-> ~ In k seen.
Proof.
  induction seen as [|x seen IH]; simpl; [tauto|].
  rewrite orb_false_iff, IH, String.eqb_neq. intuition congruence.
Qed.

(** the de-duplication keeps a sub-list whose keys are pairwise distinct and
    not among those already seen *)
Lemma dedup_by_prefix_spec (seen : list string) (msgs : list Msg) :
  NoDup (map (fun m => take 100 (content m)) (dedup_by_prefix seen msgs)) /\
  forall m, In m (dedup_by_prefix seen msgs) ->
    In m msgs /\ ~ In (take 100 (content m)) seen.
Proof.
  revert seen. induction msgs as [|x msgs IH]; intros seen; simpl; [split; [constructor | tauto]|].
  destruct (existsb (String.eqb (take 100 (content x))) seen) eqn:E.
  - destruct (IH seen) as [Hnd Hin]. split; [exact Hnd|].
    intros m Hm. destruct (Hin m Hm) as [H1 H2]. split; [right; exact H1 | exact H2].
  - apply existsb_eqb_false in E.
    destruct (IH (take 100 (content x) :: seen)) as [Hnd Hin]. split.
    + simpl. constructor; [|exact Hnd].
      intros Hk. apply in_map_iff in Hk as (m & Hkm & Hm).
      apply (proj2 (Hin m Hm)). rewrite Hkm. left. reflexivity.
    + intros m [<- | Hm]; [split; [left; reflexivity | exact E]|].
      destruct (Hin m Hm) as [H1 H2]. split; [right; exact H1|].
      intros Hs. apply H2. right. exact Hs.
Qed.

Lemma structured_extraction_facts (page : Page) :
  let out := strategy_structured_extraction page in
  length out <= 50 /\
  NoDup (map (fun m => take 100 (content m)) out) /\
  forall m, In m out ->
    (exists e t, In e (pg_query page "div, article, section") /\ el_text e = Some t /\
               content m = strip t /\ role m = determine_role_improved e) /\
    20 < String.length (content m) < 10000 /\
    any_in ui_patterns (lower (content m)) = false /\
    extraction_method m = "structured_extraction".
Proof.
  unfold strategy_structured_extraction. cbv zeta.
  set (pot := flat_map _ _).
  destruct (dedup_by_prefix_spec [] pot) as [Hnd Hin].
  split; [apply firstn_le_length|]. split.
  - rewrite <- firstn_map. apply NoDup_firstn_of. exact Hnd.
  - intros m Hm. apply in_firstn_in in Hm. destruct (Hin m Hm) as [Hp _].
    unfold pot in Hp. apply in_flat_map in Hp as (e & He & Hme).
    destruct (el_text e) as [t|] eqn:Et; [|destruct Hme].
    destruct (Nat.ltb 20 (String.length (strip t))
              && Nat.ltb (String.length (strip t)) 10000
              && looks_like_message (strip t)) eqn:C;
      [|destruct Hme].
    destruct Hme as [<- | []]. simpl.
    apply andb_true_iff in C as [C Hl]. apply andb_true_iff in C as [C1 C2].
    apply Nat.ltb_lt in C1, C2. unfold looks_like_message in Hl.
    destruct (_ || _); [discriminate|]. apply negb_true_iff in Hl.
    split; [exists e, t; auto|]. auto.
Qed.

Lemma classify_segments_spec (i : nat) (segs : list string) (m : Msg) :
  In m (classify_segments i segs) ->
  (exists seg, In seg segs /\ content m = strip seg) /\
  50 < String.length (content m) < 5000 /\
  (role m = "user" \/ role m = "assistant") /\
  extraction_method m = "fallback_pattern".
Proof.
  revert i. induction segs as [|seg segs IH]; intros i; simpl; [tauto|].
  destruct (Nat.ltb 50 (String.length (strip seg))
            && Nat.ltb (String.length (strip seg)) 5000) eqn:C.
  - intros [<- | Hm].
    + apply andb_true_iff in C as [C1 C2]. apply Nat.ltb_lt in C1, C2. simpl.
      split; [exists seg; auto|]. split; [lia|].
      split; [apply guess_role_is_user_or_assistant | reflexivity].
    + destruct (IH (S i) Hm) as [(s & Hs & Hc) R]. split; [exists s; auto | exact R].
  - intros Hm. destruct (IH (S i) Hm) as [(s & Hs & Hc) R].
    split; [exists s; auto | exact R].
Qed.

Lemma fallback_strategy_facts (page : Page) :
  length (strategy_fallback page) <= 20 /\
  forall m, In m (strategy_fallback page) ->
    50 < String.length (content m) < 5000 /\
    (role m = "user" \/ role m = "assistant") /\
    extraction_method m = "fallback_pattern".
Proof.
  unfold strategy_fallback. split; [apply firstn_le_length|].
  intros m Hm. apply in_firstn_in in Hm.
  exact (proj2 (classify_segments_spec _ _ _ Hm)).
Qed.

Lemma determine_role_facts (c : Element) :
  (determine_role_improved c = "user" \/ determine_role_improved c = "assistant" \/
   determine_role_improved c = "unknown") /\
  (determine_role_improved c = "unknown" ->
   el_text c = None \/ el_text c = Some "" \/
   avatar_match c user_avatar_selectors = None \/
   avatar_match c assistant_avatar_selectors = None \/
   el_class c = None \/ el_testid c = None) /\
  (avatar_match c user_avatar_selectors = Some true ->
   determine_role_improved c = "user") /\
  (avatar_match c user_avatar_selectors = None ->
   determine_role_improved c = "unknown").
Proof.
  unfold determine_role_improved.
  split; [|split; [|split; intros ->; reflexivity]].
  - destruct (avatar_match c user_avatar_selectors) as [[|]|]; auto.
    destruct (avatar_match c assistant_avatar_selectors) as [[|]|]; auto.
    destruct (el_class c), (el_testid c); auto.
    destruct (any_in _ _); auto. destruct (any_in _ _); auto.
    destruct (el_text c) as [[|a s]|]; auto.
    destruct (guess_role_is_user_or_assistant (String a s) 0) as [H|H]; rewrite H; auto.
  - destruct (avatar_match c user_avatar_selectors) as [[|]|]; [discriminate| |auto 6].
    destruct (avatar_match c assistant_avatar_selectors) as [[|]|]; [discriminate| |auto 6].
    destruct (el_class c), (el_testid c); auto 6.
    destruct (any_in _ _); [discriminate|]. destruct (any_in _ _); [discriminate|].
    destruct (el_text c) as [[|a s]|]; auto.
    destruct (guess_role_is_user_or_assistant (String a s) 0) as [H|H];
      rewrite H; discriminate.
Qed.

Lemma first_found_in (page : Page) (sels : list string) (c : Element) :
  In c (first_found page sels) -> exists sel, In sel sels /\ In c (pg_query page sel).
Proof.
  induction sels as [|sel sels IH]; simpl; [tauto|].
  destruct (pg_query page sel) as [|e es] eqn:E.
  - intros H. destruct (IH H) as (s' & H1 & H2). exists s'. auto.
  - intros H. exists sel. rewrite E. auto.
Qed.

Lemma messages_of_containers_spec (cs : list Element) (sels : list string)
    (method : string) (m : Msg) :
  In m (messages_of_containers cs sels method) ->
  exists c, In c cs /\ role m = determine_role_improved c /\
    content m = strip (extract_content c sels) /\
    10 < String.length (content m) /\ extraction_method m = method.
Proof.
  induction cs as [|c cs IH]; simpl; [tauto|].
  destruct (Nat.ltb 10 (String.length (strip (extract_content c sels)))) eqn:C.
  - intros [<- | Hm].
    + apply Nat.ltb_lt in C. exists c. simpl. auto.
    + destruct (IH Hm) as (c' & H1 & H2). exists c'. auto.
  - intros Hm. destruct (IH Hm) as (c' & H1 & H2). exists c'. auto.
Qed.

Lemma selector_strategies_facts (page : Page) (m : Msg) :
  (In m (strategy_modern_selectors page) ->
     10 < String.length (content m) /\ extraction_method m = "modern_selectors" /\
     exists sel c, In c (pg_query page sel) /\ role m = determine_role_improved c) /\
  (In m (strategy_alternative_selectors page) ->
     10 < String.length (content m) /\ extraction_method m = "alternative_selectors" /\
     exists c, In c (pg_query page ("div[class*=" ++ dq ++ "group" ++ dq ++ "][class*="
                                    ++ dq ++ "w-full" ++ dq ++ "]")) /\
               role m = determine_role_improved c) /\
  (In m (strategy_generic_selectors page) ->
     10 < String.length (content m) /\ extraction_method m = "generic_selectors" /\
     exists c, In c (pg_query page ("div.group, " ++ sel_contains "div" "class" "message")) /\
               role m = determine_role_improved c).
Proof.
  split; [|split]; intros Hm; apply messages_of_containers_spec in Hm;
    destruct Hm as (c & Hc & Hr & _ & Hl & Hx); split; auto; split; auto;
    [|exists c; auto..].
  apply first_found_in in Hc as (sel & _ & Hc). exists sel, c. auto.
Qed.

Lemma first_valid_in (ss : list (Page -> list Msg)) (page : Page) (m : Msg) :
  In m (first_valid ss page) -> exists s, In s ss /\ In m (s page).
Proof.
  induction ss as [|s ss IH]; simpl; [tauto|].
  destruct (s page) as [|x xs] eqn:E.
  - intros H. destruct (IH H) as (s' & H1 & H2). exists s'. auto.
  - destruct (validate_conversation_structure (x :: xs)).
    + intros H. exists s. rewrite E. auto.
    + intros H. destruct (IH H) as (s' & H1 & H2). exists s'. auto.
Qed.

(** X7: every message of a transcript [extract_conversation] returns carries
    no error-banner text, has a content longer than 10 characters, a role
    among "user", "assistant" and "unknown", and the tag of one of the five
    strategies; the transcript keeps the requested URL. *)
Theorem transcript_messages_invariants (url : string) (render : option Page) :
  match extract_conversation url render with
  | None => True
  | Some t =>
      t_url t = url /\
      forall m, In m (t_messages t) ->
        is_error_message m = false /\
        10 < String.length (content m) /\
        (role m = "user" \/ role m = "assistant" \/ role m = "unknown") /\
        In (extraction_method m)
           ["modern_selectors"; "alternative_selectors"; "generic_selectors";
            "structured_extraction"; "fallback_pattern"]
  end.
Proof.
  unfold extract_conversation. destruct render as [page|]; [|exact I].
  set (kept := filter _ _).
  assert (Hk : forall m, In m kept -> is_error_message m = false /\
                 In m (extract_with_multiple_strategies page)).
  { intros m Hm. apply filter_In in Hm as [H1 H2].
    apply negb_true_iff in H2. auto. }
  destruct kept as [|k ks] eqn:Ek; [exact I|]. rewrite <- Ek in *. simpl.
  split; [reflexivity|]. intros m Hm. destruct (Hk m Hm) as [He Hin]. split; [exact He|].
  apply first_valid_in in Hin as (s & Hs & Hm').
  assert (R : forall c, role m = determine_role_improved c ->
                role m = "user" \/ role m = "assistant" \/ role m = "unknown").
  { intros c ->. exact (proj1 (determine_role_facts c)). }
  simpl in Hs.
  destruct Hs as [<- | [<- | [<- | [<- | [<- | []]]]]].
  - destruct (proj1 (selector_strategies_facts page m) Hm') as (H1 & H2 & _ & c & _ & H3).
    rewrite H2. split; [exact H1|]. split; [exact (R c H3)|]. simpl; auto.
  - destruct (proj1 (proj2 (selector_strategies_facts page m)) Hm')
      as (H1 & H2 & c & _ & H3).
    rewrite H2. split; [exact H1|]. split; [exact (R c H3)|]. simpl; auto.
  - destruct (proj2 (proj2 (selector_strategies_facts page m)) Hm')
      as (H1 & H2 & c & _ & H3).
    rewrite H2. split; [exact H1|]. split; [exact (R c H3)|]. simpl; auto 6.
  - destruct (proj2 (proj2 (structured_extraction_facts page)) m Hm')
      as ((e & t & _ & _ & _ & H3) & H1 & _ & H2).
    rewrite H2. split; [lia|]. split; [exact (R e H3)|]. simpl; auto 6.
  - destruct (proj2 (fallback_strategy_facts page) m Hm') as (H1 & H2 & H3).
    rewrite H3. split; [lia|]. split; [destruct H2; auto|]. simpl; auto 6.
Qed.

(** X6: [_determine_role_improved] answers "user", "assistant" or "unknown";
    "unknown" only for a container whose text is empty or when a DOM call of
    the cascade raises; a user avatar marker takes precedence over every
    other signal, and a raising user-avatar query gives "unknown". *)
Theorem determine_role_range (c : Element) :
  (determine_role_improved c = "user" \/ determine_role_improved c = "assistant" \/
   determine_role_improved c = "unknown") /\
  (determine_role_improved c = "unknown" ->
   el_text c = None \/ el_text c = Some "" \/
   avatar_match c user_avatar_selectors = None \/
   avatar_match c assistant_avatar_selectors = None \/
   el_class c = None \/ el_testid c = None) /\
  (avatar_match c user_avatar_selectors = Some true ->
   determine_role_improved c = "user") /\
  (avatar_match c user_avatar_selectors = None ->
   determine_role_improved c = "unknown").
Proof. exact (determine_role_facts c). Qed.

(** X3: [_strategy_structured_extraction] returns at most 50 messages, no two
    with the same first 100 characters; each content is the stripped text of
    an element, longer than 20 and shorter than 10000 characters, with no
    UI-pattern word in it. *)
Theorem structured_extraction_invariants (page : Page) :
  let out := strategy_structured_extraction page in
  length out <= 50 /\
  NoDup (map (fun m => take 100 (content m)) out) /\
  forall m, In m out ->
    (exists e t, In e (pg_query page "div, article, section") /\ el_text e = Some t /\
               content m = strip t /\ role m = determine_role_improved e) /\
    20 < String.length (content m) < 10000 /\
    any_in ui_patterns (lower (content m)) = false /\
    extraction_method m = "structured_extraction".
Proof. exact (structured_extraction_facts page). Qed.

(** X4: [_strategy_fallback] returns at most 20 messages; each is a stripped
    piece of the page text longer than 50 and shorter than 5000 characters,
    with the role "user" or "assistant" (never "unknown"). *)
Theorem fallback_strategy_invariants (page : Page) :
  length (strategy_fallback page) <= 20 /\
  forall m, In m (strategy_fallback page) ->
    50 < String.length (content m) < 5000 /\
    (role m = "user" \/ role m = "assistant") /\
    extraction_method m = "fallback_pattern".
Proof. exact (fallback_strategy_facts page). Qed.

(** X5: each of the three selector strategies keeps only messages whose
    stripped content is longer than 10 characters, with the role
    [_determine_role_improved] gives the container, tagged with the
    strategy's name. *)
Theorem selector_strategies_invariants (page : Page) (m : Msg) :
  (In m (strategy_modern_selectors page) ->
     10 < String.length (content m) /\ extraction_method m = "modern_selectors" /\
     exists sel c, In c (pg_query page sel) /\ role m = determine_role_improved c) /\
  (In m (strategy_alternative_selectors page) ->
     10 < String.length (content m) /\ extraction_method m = "alternative_selectors" /\
     exists c, In c (pg_query page ("div[class*=" ++ dq ++ "group" ++ dq ++ "][class*="
                                    ++ dq ++ "w-full" ++ dq ++ "]")) /\
               role m = determine_role_improved c) /\
  (In m (strategy_generic_selectors page) ->
     10 < String.length (content m) /\ extraction_method m = "generic_selectors" /\
     exists c, In c (pg_query page ("div.group, " ++ sel_contains "div" "class" "message")) /\
               role m = determine_role_improved c).
Proof. exact (selector_strategies_facts page m). Qed.

(** ** Titles and file names *)

Lemma all_chars_filter_chars (p : ascii -> bool) (s : string) :
  all_chars p (filter_chars p s) = true.
Proof.
  induction s as [|c s IH]; simpl; [reflexivity|].
  destruct (p c) eqn:E; simpl; [rewrite E|]; assumption.
Qed.

Lemma filter_chars_id (p : ascii -> bool) (s : string) :
  all_chars p s = true -> filter_chars p s = s.
Proof.
  induction s as [|c s IH]; simpl; [reflexivity|].
  intros H. apply andb_true_iff in H as [H1 H2]. rewrite H1, (IH H2). reflexivity.
Qed.

Lemma all_chars_impl (p q : ascii -> bool) (s : string) :
  (forall c, p c = true -> q c = true) -> all_chars p s = true -> all_chars q s = true.
Proof.
  intros Hpq. induction s as [|c s IH]; simpl; [reflexivity|].
  intros H. apply andb_true_iff in H as [H1 H2]. rewrite (Hpq c H1). exact (IH H2).
Qed.

Lemma all_chars_forallb (p : ascii -> bool) (s : string) :
  all_chars p s = forallb p (list_ascii_of_string s).
Proof. induction s as [|c s IH]; simpl; [reflexivity | now rewrite IH]. Qed.

Lemma forallb_rev' {A} (p : A -> bool) (l : list A) : forallb p (rev l) = forallb p l.
Proof.
  induction l as [|x l IH]; simpl; [reflexivity|].
  rewrite forallb_app, IH. simpl. rewrite andb_true_r. apply andb_comm.
Qed.

Lemma all_chars_rev_string (p : ascii -> bool) (s : string) :
  all_chars p (rev_string s) = all_chars p s.
Proof.
  unfold rev_string. rewrite !all_chars_forallb, list_ascii_of_string_of_list_ascii.
  apply forallb_rev'.
Qed.

Lemma all_chars_lstrip_by (p q : ascii -> bool) (s : string) :
  all_chars q s = true -> all_chars q (lstrip_by p s) = true.
Proof.
  induction s as [|c s IH]; simpl; [reflexivity|].
  intros H. destruct (p c); [|exact H]. apply andb_true_iff in H as [_ H]. exact (IH H).
Qed.

Lemma all_chars_rstrip (q : ascii -> bool) (s : string) :
  all_chars q s = true -> all_chars q (rstrip s) = true.
Proof.
  intros H. unfold rstrip, rstrip_by. rewrite all_chars_rev_string.
  apply all_chars_lstrip_by. rewrite all_chars_rev_string. exact H.
Qed.

Lemma lstrip_by_id (p : ascii -> bool) (s : string) :
  all_chars (fun c => negb (p c)) s = true -> lstrip_by p s = s.
Proof.
  destruct s as [|c s]; simpl; [reflexivity|].
  intros H. apply andb_true_iff in H as [H _]. apply negb_true_iff in H. rewrite H.
  reflexivity.
Qed.

Lemma rev_string_involutive (s : string) : rev_string (rev_string s) = s.
Proof.
  unfold rev_string. rewrite list_ascii_of_string_of_list_ascii, rev_involutive.
  apply string_of_list_ascii_of_string.
Qed.

Lemma rstrip_id (s : string) :
  all_chars (fun c => negb (is_space c)) s = true -> rstrip s = s.
Proof.
  intros H. unfold rstrip, rstrip_by. rewrite lstrip_by_id.
  - apply rev_string_involutive.
  - rewrite all_chars_rev_string. exact H.
Qed.

Lemma take_id (n : nat) (s : string) : String.length s <= n -> take n s = s.
Proof.
  unfold take. revert n. induction s as [|c s IH]; intros n H; simpl.
  - destruct n; reflexivity.
  - destruct n as [|n]; simpl in H; [lia|]. rewrite IH by lia. reflexivity.
Qed.

Lemma take_nonempty (n : nat) (s : string) :
  s <> EmptyString -> take (S n) s <> EmptyString.
Proof. destruct s; simpl; [tauto | discriminate]. Qed.

(** the characters [re.sub(r'[^\w\-_]', '', ...)] keeps are neither blank
    nor dropped by the file-name filter *)
Lemma title_char_facts (c : ascii) :
  (is_word_char c || Ascii.eqb c "-"%char) = true ->
  negb (is_space c) = true /\
  (is_alnum_char c || Ascii.eqb c " "%char || Ascii.eqb c "-"%char
   || Ascii.eqb c "_"%char) = true.
Proof. destruct c as [[] [] [] [] [] [] [] []]; vm_compute; intros H; auto. Qed.

(** the file-name filter leaves a non-empty title of at most 50
    [\w]/["-"] characters as it is *)
Lemma sanitize_title_id (t : string) :
  t <> EmptyString -> String.length t <= 50 ->
  all_chars (fun c => is_word_char c || Ascii.eqb c "-"%char) t = true ->
  sanitize_title t = t.
Proof.
  intros Hne Hl Hc. unfold sanitize_title.
  rewrite filter_chars_id
    by (exact (all_chars_impl _ _ t (fun c H => proj2 (title_char_facts c H)) Hc)).
  rewrite rstrip_id
    by (exact (all_chars_impl _ _ t (fun c H => proj1 (title_char_facts c H)) Hc)).
  destruct t as [|a t]; [congruence|]. apply take_id. exact Hl.
Qed.

Lemma sanitize_title_facts (title : string) :
  let t := sanitize_title title in
  t <> EmptyString /\ String.length t <= 50 /\
  all_chars (fun c => is_alnum_char c || Ascii.eqb c " "%char
                      || Ascii.eqb c "-"%char || Ascii.eqb c "_"%char) t = true.
Proof.
  unfold sanitize_title. cbv zeta.
  pose proof (all_chars_rstrip _ _ (all_chars_filter_chars
     (fun c => is_alnum_char c || Ascii.eqb c " "%char
               || Ascii.eqb c "-"%char || Ascii.eqb c "_"%char) title)) as Hc.
  destruct (rstrip _) as [|a s].
  { split; [discriminate | split; [simpl; lia | reflexivity]]. }
  split; [apply take_nonempty; discriminate|].
  split; [apply substring_length_le|]. apply all_chars_substring. exact Hc.
Qed.

Lemma generate_title_facts (msgs : list Msg) (now : string) :
  let t := InsightExtractor.generate_title msgs now in
  t = InsightExtractor.placeholder now \/
  (t <> EmptyString /\ String.length t <= 50 /\
   all_chars (fun c => is_word_char c || Ascii.eqb c "-"%char) t = true).
Proof.
  unfold InsightExtractor.generate_title. cbv zeta.
  destruct (InsightExtractor.first_content_with_role "user" msgs) as [[|a s]|];
    [left; reflexivity | | left; reflexivity].
  set (p := fun c => is_word_char c || Ascii.eqb c "-"%char).
  set (raw := filter_chars p _).
  pose proof (all_chars_filter_chars p (match InsightExtractor.find_name
      InsightExtractor.name_patterns (lower (String a s)) with
      | Some n => n | None => "user" end ++ "_" ++ join "_" (map (fun w =>
      strip_chars ".,!?" (lower w)) (filter isalnum (firstn 5 (split_ws (String a s))))))) as Hc.
  fold raw in Hc.
  destruct (take 50 raw) as [|b r] eqn:E; [left; reflexivity|]. right.
  rewrite <- E. split; [rewrite E; discriminate|].
  split; [apply substring_length_le|]. apply all_chars_substring. exact Hc.
Qed.

(** the placeholder title of a clock reading made of [\w] characters *)
Lemma placeholder_facts (now : string) :
  all_chars is_word_char now = true -> String.length now <= 37 ->
  sanitize_title (InsightExtractor.placeholder now) = InsightExtractor.placeholder now.
Proof.
  intros Hc Hl. apply sanitize_title_id.
  - discriminate.
  - unfold InsightExtractor.placeholder. rewrite string_length_app. simpl. lia.
  - unfold InsightExtractor.placeholder. rewrite all_chars_app. simpl.
    apply (all_chars_impl is_word_char); [|exact Hc].
    intros c H. rewrite H. reflexivity.
Qed.

(** ** Validation of a link *)

Lemma improved_validate_link_facts (session : Session) (url : string) (calls : nat) :
  let '(ok, calls') := improved_validate_link session url calls in
  (calls' = calls \/ calls' = S calls) /\
  (session url = None -> ok = false) /\
  (ok = true ->
   calls' = S calls /\ prefix share_prefix url = true /\
   20 <= String.length (last_or_empty (split "/" url)) /\
   exists r text, session url = Some r /\ resp_text r = Some text /\
     resp_status r < 400 /\
     contains "auth.openai.com" (resp_url r) = false /\
     contains "login" (lower (resp_url r)) = false /\
     any_in error_indicators (lower text) = false /\
     2 <= length (filter (fun i => contains i (lower text)) positive_indicators)).
Proof.
  unfold improved_validate_link.
  destruct (prefix share_prefix url) eqn:Hp; simpl;
    [|split; [left; reflexivity | split; [reflexivity | discriminate]]].
  destruct (Nat.ltb (String.length (last_or_empty (split "/" url))) 20) eqn:Hl;
    [split; [left; reflexivity | split; [reflexivity | discriminate]]|].
  apply Nat.ltb_ge in Hl.
  destruct (session url) as [r|] eqn:Hs;
    [|split; [right; reflexivity | split; [reflexivity | discriminate]]].
  split; [right; reflexivity|]. split; [discriminate|]. intros Hok.
  split; [reflexivity|]. split; [reflexivity|]. split; [exact Hl|].
  unfold check_response in Hok.
  destruct (contains "auth.openai.com" (resp_url r)) eqn:H1; [discriminate|].
  destruct (contains "login" (lower (resp_url r))) eqn:H2; [discriminate|].
  destruct (Nat.eqb (resp_status r) 404); [discriminate|].
  destruct (Nat.eqb (resp_status r) 403); [discriminate|].
  destruct (Nat.leb 400 (resp_status r)) eqn:H3; [discriminate|].
  apply Nat.leb_gt in H3.
  destruct (resp_text r) as [text|] eqn:Ht; [|discriminate].
  destruct (any_in error_indicators (lower text)) eqn:H4; [discriminate|].
  apply Nat.leb_le in Hok. exists r, text. auto 8.
Qed.

(** ** One run of the pipeline *)

(** ** One run of the pipeline *)

Lemma process_single_link_facts (env : Env) (url : string) (st : AppState) :
  let '(res, st', log) := process_single_link env url st in
  links_generated st' = links_generated st /\
  valid_links st' + failed_validations st' = S (valid_links st + failed_validations st) /\
  network_calls st' = snd (improved_validate_link (env_session env) url (network_calls st)) /\
  (valid_links st' = S (valid_links st) <->
   fst (improved_validate_link (env_session env) url (network_calls st)) = true) /\
  ((insights_extracted st' = insights_extracted st /\ forall p, ~ In (EvSaveInsights p) log)
   \/ (insights_extracted st' = S (insights_extracted st) /\
       exists p, In (EvSaveInsights p) log)) /\
  (forall p q, In (EvPartialFile p) log -> ~ In (EvSaveInsights q) log) /\
  match res with
  | None =>
      log = [] \/
      exists title,
        log = [EvPartialFile ("valid_jsons/" ++ sanitize_title title ++ "_"
                              ++ last_or_empty (split "/" url) ++ ".json")]
  | Some r =>
      valid_links st' = S (valid_links st) /\
      pr_url r = url /\ 1 <= pr_message_count r /\
      head log = Some (EvSaveConversation (pr_conversation_file r)) /\
      (forall p, pr_insights_file r = Some p <-> In (EvSaveInsights p) log) /\
      exists fname,
        fname = sanitize_title (pr_title r) ++ "_" ++ last_or_empty (split "/" url)
                ++ ".json" /\
        pr_conversation_file r = "valid_jsons/" ++ fname /\
        (pr_insights_file r = None \/ pr_insights_file r = Some ("insights_json/" ++ fname)) /\
        (forall p, In (EvPartialFile p) log ->
         pr_insights_file r = None /\ p = "insights_json/" ++ fname)
  end.
Proof.
  unfold process_single_link.
  destruct (improved_validate_link (env_session env) url (network_calls st)) as [ok calls].
  simpl. destruct ok; simpl.
  2: { split; [reflexivity|]. split; [lia|]. split; [reflexivity|].
       split; [split; [lia | discriminate]|]. split; [left; split; [reflexivity | tauto]|].
       split; [intros p q []|]. left; reflexivity. }
  destruct (extract_conversation url (env_render env)) as [t|]; simpl.
  2: { split; [reflexivity|]. split; [lia|]. split; [reflexivity|].
       split; [tauto|]. split; [left; split; [reflexivity | tauto]|].
       split; [intros p q []|]. left; reflexivity. }
  destruct (Nat.ltb (length (t_messages t)) 1) eqn:H1; simpl.
  { split; [reflexivity|]. split; [lia|]. split; [reflexivity|].
    split; [tauto|]. split; [left; split; [reflexivity | tauto]|].
    split; [intros p q []|]. left; reflexivity. }
  apply Nat.ltb_ge in H1.
  destruct (env_save_conversation_ok env); simpl.
  2: { split; [reflexivity|]. split; [lia|]. split; [reflexivity|].
       split; [tauto|].
       destruct (env_conversation_opened env).
       - split; [left; split; [reflexivity | intros p [H|[]]; discriminate]|].
         split; [intros p q _ [H|[]]; discriminate|].
         right. eexists. reflexivity.
       - split; [left; split; [reflexivity | tauto]|].
         split; [intros p q []|]. left; reflexivity. }
  destruct (length (t_messages t)) as [|[|n]] eqn:Hn; [lia| |];
  [|destruct (env_insights env) as [|[i|]];
    [| destruct (env_save_insights_ok env); [|destruct (env_insights_opened env)] |]];
  simpl.
  all: split; [reflexivity|]; split; [lia|]; split; [reflexivity|]; split; [tauto|].
  all: first
    [ split; [left; split; [reflexivity | intros p H; simpl in H; intuition discriminate]|];
      split; [intros p q Hp Hq; simpl in Hp, Hq; intuition discriminate|];
      split; [reflexivity|]; split; [reflexivity|]; split; [lia|]; split; [reflexivity|];
      split; [intros p; split; [discriminate | intros H; simpl in H; intuition discriminate]|];
      eexists; split; [reflexivity|]; split; [reflexivity|]; split; [left; reflexivity|];
      intros p H; simpl in H; intuition (try discriminate);
      match goal with H : EvPartialFile _ = EvPartialFile _ |- _ => injection H as <- end;
      split; reflexivity
    | split; [right; split; [reflexivity | eexists; simpl; right; right; left; reflexivity]|];
      split; [intros p q Hp Hq; simpl in Hp, Hq; intuition discriminate|];
      split; [reflexivity|]; split; [reflexivity|]; split; [lia|]; split; [reflexivity|];
      split;
      [ intros p; simpl; split;
        [ intros H; injection H as <-; right; right; left; reflexivity
        | intros H; intuition (try discriminate); injection H0 as <-; reflexivity ]
      | eexists; split; [reflexivity|]; split; [reflexivity|]; split; [right; reflexivity|];
        intros p H; simpl in H; intuition discriminate ] ].
Qed.

(** ** The scheduler, the endpoints and the insight inputs *)

Lemma worker_step_facts (cf : nat) (b : Batch) :
  let '(cf', sleeps) := worker_step cf b in
  length sleeps = 1 + cooldowns sleeps /\ cooldowns sleeps <= 1 /\
  Forall (fun d => d = 10 \/ d = 15 \/ d = 30) sleeps /\ cf' <= S cf.
Proof.
  destruct b as [[|r rs]|]; simpl.
  - split; [reflexivity|]. split; [unfold cooldowns; simpl; lia|]. split; [auto|lia].
  - destruct (Nat.eqb (successful (r :: rs)) 0).
    + destruct cf as [|[|cf]]; simpl;
        (split; [reflexivity|]; split; [unfold cooldowns; simpl; lia|]; split; [auto|lia]).
    + split; [reflexivity|]. split; [unfold cooldowns; simpl; lia|]. split; [auto|lia].
  - split; [reflexivity|]. split; [unfold cooldowns; simpl; lia|]. split; [auto|lia].
Qed.

(** the sleep after batch [b], with the cool-down first when [cd] *)
Definition batch_sleeps (bc : Batch * bool) : list nat :=
  ((if snd bc then [30] else [])
   ++ [match fst bc with BatchRaises => 10 | BatchResults _ => 15 end])%list.

Lemma worker_step_sleeps (cf : nat) (b : Batch) :
  exists cd, (cd = true -> zero_success_batch b = true) /\
             snd (worker_step cf b) = batch_sleeps (b, cd).
Proof.
  destruct b as [[|r rs]|]; simpl.
  - exists false. split; [discriminate | reflexivity].
  - destruct (Nat.eqb (successful (r :: rs)) 0) eqn:E.
    + exists (Nat.leb 3 (S cf)). split; [intros _; first [exact E | reflexivity]|].
      destruct cf as [|[|cf]]; reflexivity.
    + exists false. split; [discriminate | reflexivity].
  - exists false. split; [discriminate | reflexivity].
Qed.

Lemma run_worker_sleeps (cf : nat) (bs : list Batch) :
  exists cds, length cds = length bs /\
    (forall b cd, In (b, cd) (combine bs cds) -> cd = true -> zero_success_batch b = true) /\
    snd (run_worker cf bs) = flat_map batch_sleeps (combine bs cds).
Proof.
  revert cf. induction bs as [|b bs IH]; intros cf.
  - exists []. split; [reflexivity|]. split; [intros ? ? []|]. reflexivity.
  - destruct (worker_step_sleeps cf b) as (cd & Hcd & Hs).
    simpl. destruct (worker_step cf b) as [cf1 s1] eqn:Ew.
    destruct (IH cf1) as (cds & Hl & Hz & Hr).
    destruct (run_worker cf1 bs) as [cf2 s2]. simpl in Hs, Hr |- *.
    exists (cd :: cds). split; [simpl; lia|]. split.
    + intros b' cd' [E | H]; [injection E as <- <-; exact Hcd | exact (Hz b' cd' H)].
    + rewrite Hs, Hr. reflexivity.
Qed.

Lemma run_worker_facts (cf : nat) (bs : list Batch) :
  let '(cf', sleeps) := run_worker cf bs in
  length sleeps = length bs + cooldowns sleeps /\
  Forall (fun d => d = 10 \/ d = 15 \/ d = 30) sleeps /\
  cooldowns sleeps <= length bs /\ cf' <= cf + length bs.
Proof.
  revert cf. induction bs as [|b bs IH]; intros cf; simpl.
  { split; [reflexivity|]. split; [auto|]. split; [reflexivity | lia]. }
  pose proof (worker_step_facts cf b) as Hs.
  destruct (worker_step cf b) as [cf1 s1].
  specialize (IH cf1). destruct (run_worker cf1 bs) as [cf2 s2].
  destruct Hs as (Hl1 & Hk1 & Hf1 & Hc1). destruct IH as (Hl2 & Hf2 & Hk2 & Hc2).
  rewrite length_app, cooldowns_app.
  split; [lia|]. split; [apply Forall_app; auto|]. lia.
Qed.

Lemma control_facts (now : string) (s : Control.RunState) :
  (Control.is_running s = true ->
   Control.start_processing now s =
     (Control.HttpError 400 "Processing is already running", s)) /\
  (Control.is_running s = false ->
   Control.stop_processing s = (Control.HttpError 400 "Processing is not running", s)) /\
  Control.is_running (snd (Control.start_processing now s)) = true /\
  Control.is_running (snd (Control.stop_processing s)) = false /\
  Control.start_time (snd (Control.stop_processing s)) = Control.start_time s /\
  fst (Control.start_processing now (snd (Control.stop_processing s)))
    = Control.Ok "Processing started successfully" /\
  fst (Control.stop_processing (snd (Control.start_processing now s)))
    = Control.Ok "Processing stopped successfully".
Proof.
  destruct s as [[] t b]; unfold Control.start_processing, Control.stop_processing; simpl;
    repeat split; try discriminate; reflexivity.
Qed.

Lemma contents_with_role_known (r : string) (msgs : list Msg) :
  r = "user" \/ r = "assistant" ->
  InsightExtractor.contents_with_role r (filter keep_known msgs)
  = InsightExtractor.contents_with_role r msgs.
Proof.
  intros Hr. unfold InsightExtractor.contents_with_role. f_equal.
  induction msgs as [|m msgs IH]; simpl; [reflexivity|].
  unfold keep_known at 1.
  destruct (String.eqb (role m) r) eqn:E.
  - apply String.eqb_eq in E. rewrite E.
    destruct Hr as [-> | ->]; simpl; rewrite ?E; simpl; rewrite IH; reflexivity.
  - destruct (String.eqb (role m) "user" || String.eqb (role m) "assistant"); simpl;
      rewrite ?E; exact IH.
Qed.

Lemma first_content_user_known (msgs : list Msg) :
  InsightExtractor.first_content_with_role "user" (filter keep_known msgs)
  = InsightExtractor.first_content_with_role "user" msgs.
Proof.
  induction msgs as [|m msgs IH]; simpl; [reflexivity|].
  unfold keep_known at 1.
  destruct (String.eqb (role m) "user") eqn:E; simpl; [rewrite E; reflexivity|].
  destruct (String.eqb (role m) "assistant"); simpl; rewrite ?E; exact IH.
Qed.

Lemma title_insights_ignore_unknown (msgs : list Msg) (now : string) :
  InsightExtractor.generate_title (filter keep_known msgs) now
    = InsightExtractor.generate_title msgs now /\
  InsightExtractor.generate_fallback_insights (filter keep_known msgs) now
    = InsightExtractor.generate_fallback_insights msgs now.
Proof.
  split.
  - unfold InsightExtractor.generate_title. rewrite first_content_user_known. reflexivity.
  - unfold InsightExtractor.generate_fallback_insights, InsightExtractor.fallback_sentiment,
      InsightExtractor.fallback_all_text.
    rewrite !contents_with_role_known by auto. reflexivity.
Qed.

(** ** Version and variant of the generated UUIDs *)

Lemma uuid_version_nibble (r : Z) :
  Z.land (Z.shiftr (LinkGenerator.uuid4_int r) 76) 15 = 4%Z.
Proof.
  unfold LinkGenerator.uuid4_int. apply Z.bits_inj'. intros n Hn.
  rewrite Z.land_spec, Z.shiftr_spec by lia.
  destruct (Z.lt_ge_cases n 4) as [Hlt|Hge].
  - repeat (rewrite ?Z.lor_spec, ?Z.land_spec, ?Z.lnot_spec, ?Z.shiftl_spec by lia).
    generalize (Z.testbit (r mod 2 ^ 128) (n + 76))%Z as b. intros b.
    assert (Hc : (n = 0 \/ n = 1 \/ n = 2 \/ n = 3)%Z) by lia.
    destruct Hc as [-> | [-> | [-> | ->]]]; destruct b; vm_compute; reflexivity.
  - rewrite (Z.bits_above_log2 15 n), (Z.bits_above_log2 4 n) by (simpl; lia).
    apply andb_false_r.
Qed.

Lemma uuid_variant_nibble (r : Z) :
  exists v, (v = 8 \/ v = 9 \/ v = 10 \/ v = 11)%Z /\
  Z.land (Z.shiftr (LinkGenerator.uuid4_int r) 60) 15 = v.
Proof.
  unfold LinkGenerator.uuid4_int. generalize (r mod 2 ^ 128)%Z as x. intros x.
  destruct (Z.testbit x 60) eqn:E0, (Z.testbit x 61) eqn:E1;
    [exists 11%Z | exists 9%Z | exists 10%Z | exists 8%Z];
    (split; [auto|]); apply Z.bits_inj'; intros n Hn;
    rewrite Z.land_spec, Z.shiftr_spec by lia;
    (destruct (Z.lt_ge_cases n 4) as [Hlt|Hge];
     [ repeat (rewrite ?Z.lor_spec, ?Z.land_spec, ?Z.lnot_spec, ?Z.shiftl_spec by lia);
       assert (Hc : (n = 0 \/ n = 1 \/ n = 2 \/ n = 3)%Z) by lia;
       destruct Hc as [-> | [-> | [-> | ->]]];
       [ change (Z.testbit x (0 + 60)) with (Z.testbit x 60); rewrite E0
       | change (Z.testbit x (1 + 60)) with (Z.testbit x 61); rewrite E1
       | generalize (Z.testbit x (2 + 60)); intros []
       | generalize (Z.testbit x (3 + 60)); intros [] ];
       vm_compute; reflexivity
     | rewrite (Z.bits_above_log2 15 n) by (simpl; lia);
       rewrite andb_false_r; symmetry; apply Z.bits_above_log2; simpl; lia ]).
Qed.

Lemma uuid_str_nibbles (i : Z) :
  get 14 (LinkGenerator.uuid_str i) =
    Some (LinkGenerator.hex_digit (Z.land (Z.shiftr i 76) 15)) /\
  get 19 (LinkGenerator.uuid_str i) =
    Some (LinkGenerator.hex_digit (Z.land (Z.shiftr i 60) 15)).
Proof. split; reflexivity. Qed.

(** * Extra properties *)

(** X2: every link of [generate_links] carries a version-4 UUID: the
    character after the second dash is "4" and the one after the third dash
    is one of "8", "9", "a", "b" (the RFC 4122 variant). *)
Theorem generated_links_are_uuid4 (count : nat) (draw : nat -> Z) :
  Forall (fun l => exists u, l = share_prefix ++ u /\
            get 14 u = Some "4"%char /\
            In (get 19 u) [Some "8"%char; Some "9"%char; Some "a"%char; Some "b"%char])
         (LinkGenerator.generate_links count draw).
Proof.
  unfold LinkGenerator.generate_links. apply Forall_forall.
  intros l Hin. apply in_map_iff in Hin as (k & <- & _).
  set (i := LinkGenerator.uuid4_int (draw k)).
  exists (LinkGenerator.uuid_str i). split; [reflexivity|].
  destruct (uuid_str_nibbles i) as [H14 H19]. rewrite H14, H19.
  unfold i. rewrite uuid_version_nibble. split; [reflexivity|].
  destruct (uuid_variant_nibble (draw k)) as (v & Hv & ->).
  destruct Hv as [-> | [-> | [-> | ->]]]; simpl; auto 6.
Qed.

(** X8: [generate_title] never fails: it answers the time-stamped
    placeholder, or a non-empty title of at most 50 characters, each a
    [\w] character or "-". *)
Theorem generate_title_shape (msgs : list Msg) (now : string) :
  let t := InsightExtractor.generate_title msgs now in
  t = InsightExtractor.placeholder now \/
  (t <> EmptyString /\ String.length t <= 50 /\
   all_chars (fun c => is_word_char c || Ascii.eqb c "-"%char) t = true).
Proof. exact (generate_title_facts msgs now). Qed.

(** X9: the file-name part [process_single_link] makes of any title is
    non-empty, at most 50 characters long, and made only of alphanumeric
    characters, spaces, "-" and "_". *)
Theorem sanitize_title_shape (title : string) :
  let t := sanitize_title title in
  t <> EmptyString /\ String.length t <= 50 /\
  all_chars (fun c => is_alnum_char c || Ascii.eqb c " "%char
                      || Ascii.eqb c "-"%char || Ascii.eqb c "_"%char) t = true.
Proof. exact (sanitize_title_facts title). Qed.

(** X10: with a clock reading of at most 37 [\w] characters (the
    [%Y%m%d_%H%M%S] format has 15), the title [generate_title] answers
    passes the file-name filter of [process_single_link] unchanged. *)
Theorem title_survives_sanitizing (msgs : list Msg) (now : string)
  (Hnow : all_chars is_word_char now = true) (Hlen : String.length now <= 37) :
  sanitize_title (InsightExtractor.generate_title msgs now)
  = InsightExtractor.generate_title msgs now.
Proof.
  destruct (generate_title_facts msgs now) as [H | (H1 & H2 & H3)].
  - rewrite H. exact (placeholder_facts now Hnow Hlen).
  - exact (sanitize_title_id _ H1 H2 H3).
Qed.

Lemma title_survives_sanitizing_witness :
  sanitize_title (InsightExtractor.generate_title scenario_A "20261014_120000")
  = InsightExtractor.generate_title scenario_A "20261014_120000".
Proof.
  apply title_survives_sanitizing; [reflexivity | simpl; lia].
Defined.

(** X11: [improved_validate_link] makes at most one transport call, answers
    False when the call raises, and answers True only after exactly one call
    whose response is not a login redirect, has a status below 400, and has
    a body with no error indicator and at least two positive indicators. *)
Theorem validate_link_outcome (session : Session) (url : string) (calls : nat) :
  let '(ok, calls') := improved_validate_link session url calls in
  (calls' = calls \/ calls' = S calls) /\
  (session url = None -> ok = false) /\
  (ok = true ->
   calls' = S calls /\ prefix share_prefix url = true /\
   20 <= String.length (last_or_empty (split "/" url)) /\
   exists r text, session url = Some r /\ resp_text r = Some text /\
     resp_status r < 400 /\
     contains "auth.openai.com" (resp_url r) = false /\
     contains "login" (lower (resp_url r)) = false /\
     any_in error_indicators (lower text) = false /\
     2 <= length (filter (fun i => contains i (lower text)) positive_indicators)).
Proof. exact (improved_validate_link_facts session url calls). Qed.

(** X12: one [process_single_link] run leaves [links_generated] alone, adds
    exactly one to [valid_links] or to [failed_validations] (to
    [valid_links] exactly when the link validates), makes at most one
    transport call, and adds one to [insights_extracted] exactly when it
    writes an insight file completely; a run that leaves a partial file
    (its [json.dump] raised after [open] created the file) adds nothing to
    [insights_extracted]. *)
Theorem pipeline_counters (env : Env) (url : string) (st : AppState) :
  let '(res, st', log) := process_single_link env url st in
  links_generated st' = links_generated st /\
  valid_links st' + failed_validations st' = S (valid_links st + failed_validations st) /\
  (valid_links st' = S (valid_links st) <->
   fst (improved_validate_link (env_session env) url (network_calls st)) = true) /\
  (network_calls st' = network_calls st \/ network_calls st' = S (network_calls st)) /\
  ((insights_extracted st' = insights_extracted st /\ forall p, ~ In (EvSaveInsights p) log)
   \/ (insights_extracted st' = S (insights_extracted st) /\
       exists p, In (EvSaveInsights p) log)) /\
  (forall p, In (EvPartialFile p) log -> insights_extracted st' = insights_extracted st).
Proof.
  pose proof (process_single_link_facts env url st) as H.
  pose proof (improved_validate_link_facts (env_session env) url (network_calls st)) as Hv.
  destruct (process_single_link env url st) as [[res st'] log].
  destruct H as (H1 & H2 & H3 & H4 & H5 & H6 & _).
  destruct (improved_validate_link (env_session env) url (network_calls st)) as [ok c].
  simpl in H3, H4. destruct Hv as (Hc & _).
  split; [exact H1|]. split; [exact H2|]. split; [exact H4|].
  split; [rewrite H3; exact Hc|]. split; [exact H5|].
  intros p Hp. destruct H5 as [[E _] | [_ [q Hq]]]; [exact E|].
  destruct (H6 p q Hp Hq).
Qed.

(** X13: a [process_single_link] run that answers None writes no complete
    file: at most a partial conversation file
    [valid_jsons/<title>_<uuid>.json] is left, when [json.dump] raised after
    [open] created it.  One that answers a result first writes the
    conversation file [valid_jsons/<title>_<uuid>.json], counts at least one
    message, and names an insight file exactly when it wrote
    [insights_json/<title>_<uuid>.json] completely, with the same file
    name; a partial insight file, if any, is that file and goes with a
    result naming no insight file. *)
Theorem pipeline_persistence (env : Env) (url : string) (st : AppState) :
  let '(res, st', log) := process_single_link env url st in
  match res with
  | None =>
      log = [] \/
      exists title,
        log = [EvPartialFile ("valid_jsons/" ++ sanitize_title title ++ "_"
                              ++ last_or_empty (split "/" url) ++ ".json")]
  | Some r =>
      valid_links st' = S (valid_links st) /\
      pr_url r = url /\ 1 <= pr_message_count r /\
      head log = Some (EvSaveConversation (pr_conversation_file r)) /\
      (forall p, pr_insights_file r = Some p <-> In (EvSaveInsights p) log) /\
      exists fname,
        fname = sanitize_title (pr_title r) ++ "_" ++ last_or_empty (split "/" url)
                ++ ".json" /\
        pr_conversation_file r = "valid_jsons/" ++ fname /\
        (pr_insights_file r = None \/ pr_insights_file r = Some ("insights_json/" ++ fname)) /\
        (forall p, In (EvPartialFile p) log ->
         pr_insights_file r = None /\ p = "insights_json/" ++ fname)
  end.
Proof.
  pose proof (process_single_link_facts env url st) as H.
  destruct (process_single_link env url st) as [[res st'] log].
  exact (proj2 (proj2 (proj2 (proj2 (proj2 (proj2 H)))))).
Qed.

(** X14: in [background_worker], the sleeps are, batch by batch in order, an
    optional 30 s cool-down (only after a non-empty batch with no successful
    result) followed by 10 s for an iteration that raised and 15 s for any
    other; so every iteration sleeps once more than its cool-downs, and the
    failure counter grows by at most one per iteration. *)
Theorem scheduler_sleeps (cf : nat) (bs : list Batch) :
  let '(cf', sleeps) := run_worker cf bs in
  (exists cds, length cds = length bs /\
     (forall b cd, In (b, cd) (combine bs cds) -> cd = true ->
                   zero_success_batch b = true) /\
     sleeps = flat_map batch_sleeps (combine bs cds)) /\
  length sleeps = length bs + cooldowns sleeps /\
  Forall (fun d => d = 10 \/ d = 15 \/ d = 30) sleeps /\
  cooldowns sleeps <= length bs /\ cf' <= cf + length bs.
Proof.
  pose proof (run_worker_sleeps cf bs) as Hs.
  pose proof (run_worker_facts cf bs) as Hf.
  destruct (run_worker cf bs) as [cf' sleeps].
  split; [exact Hs | exact Hf].
Qed.

(** X15: [/start] while running and [/stop] while stopped answer HTTP 400 and
    change nothing; [/start] always leaves the processor running and
    [/stop] always leaves it stopped, keeping the start time; a start after
    any stop, and a stop after any start, succeed. *)
Theorem control_endpoints (now : string) (s : Control.RunState) :
  (Control.is_running s = true ->
   Control.start_processing now s =
     (Control.HttpError 400 "Processing is already running", s)) /\
  (Control.is_running s = false ->
   Control.stop_processing s = (Control.HttpError 400 "Processing is not running", s)) /\
  Control.is_running (snd (Control.start_processing now s)) = true /\
  Control.is_running (snd (Control.stop_processing s)) = false /\
  Control.start_time (snd (Control.stop_processing s)) = Control.start_time s /\
  fst (Control.start_processing now (snd (Control.stop_processing s)))
    = Control.Ok "Processing started successfully" /\
  fst (Control.stop_processing (snd (Control.start_processing now s)))
    = Control.Ok "Processing stopped successfully".
Proof. exact (control_facts now s). Qed.

(** X16: [generate_title] and [_generate_fallback_insights] ignore every
    message whose role is neither "user" nor "assistant" (such as the
    "unknown" role of the extractor): dropping them changes neither. *)
Theorem title_insights_ignore_other_roles (msgs : list Msg) (now : string) :
  InsightExtractor.generate_title (filter keep_known msgs) now
    = InsightExtractor.generate_title msgs now /\
  InsightExtractor.generate_fallback_insights (filter keep_known msgs) now
    = InsightExtractor.generate_fallback_insights msgs now.
Proof. exact (title_insights_ignore_unknown msgs now). Qed.
